(** * RadLabs market maker: quoting, fill detection, inventory and spread engine

  A shallow embedding of [market-maker.js] (classes [TickMath],
  [PositionManager], [FillMonitor], [InventoryTracker], [SpreadCalculator],
  [MarketMaker]) and of the ladder engine (class [VolumeBot], the version
  that places ladder orders and executes the reverse trades), followed by
  the properties of the specification that concern them.

  Number model.  A JavaScript [number] is modelled as a real number of
  [R]: arithmetic is exact, there is no rounding, no [NaN] and no
  [Infinity] (Rocq's [x / 0] is [0]).  Values that the code only ever uses
  as integers (ticks, tick spacings, counters) are modelled in [Z]. *)

From Stdlib Require Import Reals Zfloor ZArith List String Bool Lra Lia.
Import ListNotations.

Open Scope R_scope.

(** ** The JavaScript operations the code relies on *)

Module JS.

(** [throw new Error(msg)] against a normal return. *)
Inductive Result (A : Type) : Type :=
| Ok (value : A)
| Throw (message : string).
Arguments Ok {A} value.
Arguments Throw {A} message.

Definition bind {A B : Type} (r : Result A) (k : A -> Result B) : Result B :=
  match r with
  | Ok a => k a
  | Throw m => Throw m
  end.

(** Comparison operators [<], [<=], [>], [>=] as boolean tests. *)
Definition ltb (x y : R) : bool := if Rlt_dec x y then true else false.
Definition leb (x y : R) : bool := if Rle_dec x y then true else false.
Definition gtb (x y : R) : bool := ltb y x.
Definition geb (x y : R) : bool := leb y x.
(** [x === y] on numbers. *)
Definition eqb (x y : R) : bool := if Req_dec_T x y then true else false.

(** [Math.floor]. *)
Definition Math_floor (x : R) : Z := Zfloor x.
(** [Math.round]: the nearest integer, a tie going towards +infinity. *)
Definition Math_round (x : R) : Z := Zfloor (x + / 2).
Definition Math_log (x : R) : R := ln x.
Definition Math_pow (x y : R) : R := Rpower x y.
Definition Math_abs (x : R) : R := Rabs x.
Definition Math_max (x y : R) : R := Rmax x y.
Definition Math_min (x y : R) : R := Rmin x y.

(** [x || d] on a number: [d] replaces a falsy [x], that is [0]. *)
Definition or_default (x d : R) : R := if eqb x 0 then d else x.

End JS.
Import JS.

Notation "x <? y" := (JS.ltb x y) : R_scope.
Notation "x <=? y" := (JS.leb x y) : R_scope.
Notation "x >? y" := (JS.gtb x y) : R_scope.
Notation "x >=? y" := (JS.geb x y) : R_scope.

(** ** 1. Tick/price converter: [class TickMath] *)

Module TickMath.

Definition MIN_TICK : Z := -887272.
Definition MAX_TICK : Z := 887272.

(** The default value of the [tickSpacing] parameters. *)
Definition DEFAULT_TICK_SPACING : Z := 200.

(** [Math.max(this.MIN_TICK, Math.min(this.MAX_TICK, t))]. *)
Definition clampTick (t : Z) : Z := Z.max MIN_TICK (Z.min MAX_TICK t).

Definition priceToTick (price : R) : Result Z :=
  if price <=? 0 then Throw "Price must be positive"
  else
    let tick := Math_floor (Math_log price / Math_log 1.0001) in
    Ok (clampTick tick).

Definition tickToPrice (tick : Z) : R := Math_pow 1.0001 (IZR tick).

(** [nearestUsableTick(tick, tickSpacing)].  The code only ever passes the
    spacing 200.  With a spacing of 0 the source divides by zero and returns
    [NaN], for which the model has no value: the properties below take a
    spacing that is not 0. *)
Definition nearestUsableTick (tick tickSpacing : Z) : Z :=
  let rounded := (Math_round (IZR tick / IZR tickSpacing) * tickSpacing)%Z in
  clampTick rounded.

Record TickRange : Type := mkRange { lowerTick : Z; upperTick : Z }.

Definition limitOrderRange (targetPrice : R) (tickSpacing : Z) : Result TickRange :=
  bind (priceToTick targetPrice) (fun centerTick =>
    let lowerTick := nearestUsableTick centerTick tickSpacing in
    let upperTick := nearestUsableTick (centerTick + tickSpacing) tickSpacing in
    Ok (mkRange lowerTick upperTick)).

End TickMath.

(** ** 2. Position manager: [class PositionManager] *)

(** The strings ['bid'] and ['ask'] of [side]. *)
Inductive Side : Type := bid | ask.

(** The strings of [status]: [market-maker.js] uses ['open'], ['filling'] and
    ['filled'], [VolumeBot] uses ['open'], ['filled'] and ['cancelled']. *)
Inductive Status : Type := open | filling | filled | cancelled.

Definition Side_eqb (a b : Side) : bool :=
  match a, b with
  | bid, bid | ask, ask => true
  | _, _ => false
  end.

Definition Status_eqb (a b : Status) : bool :=
  match a, b with
  | open, open | filling, filling | filled, filled | cancelled, cancelled => true
  | _, _ => false
  end.

Module PositionManager.

(** The amounts and ticks sent with a provide-liquidity transaction. *)
Record TxParams : Type := mkTxParams {
  amount0 : Z;
  amount1 : Z;
  txUpperTick : Z;
  txLowerTick : Z
}.

(** A pseudo-limit order.  [id] is the template [pos-${Date.now()}-${side}],
    kept as the pair it is built from; [filledAt] is absent until the order
    is filled. *)
Record Position : Type := mkPosition {
  id : Z * Side;
  side : Side;
  targetPrice : R;
  sizeBTC : R;
  lowerTick : Z;
  upperTick : Z;
  status : Status;
  createdAt : Z;
  filledAt : option Z;
  txParams : TxParams
}.

Definition setStatus (position : Position) (s : Status) : Position :=
  mkPosition (id position) (side position) (targetPrice position)
    (sizeBTC position) (lowerTick position) (upperTick position) s
    (createdAt position) (filledAt position) (txParams position).

Definition setFilledAt (position : Position) (now : Z) : Position :=
  mkPosition (id position) (side position) (targetPrice position)
    (sizeBTC position) (lowerTick position) (upperTick position)
    (status position) (createdAt position) (Some now) (txParams position).

(** The manager is its list [activePositions] (the address and the access
    token play no part in the engine). *)
Record t : Type := mk { activePositions : list Position }.

Definition new : t := mk [].

(** [createLimitOrder({ side, price, sizeBTC, pool })], [now] being the value
    of [Date.now()].  It throws when [TickMath.limitOrderRange] does. *)
Definition createLimitOrder (pm : t) (side : Side) (price sizeBTC : R) (now : Z)
  : Result (t * Position) :=
  bind (TickMath.limitOrderRange price TickMath.DEFAULT_TICK_SPACING) (fun range =>
    let lowerTick := TickMath.lowerTick range in
    let upperTick := TickMath.upperTick range in
    let amount0 := if Side_eqb side bid then Math_floor (sizeBTC * 1e8) else 0%Z in
    let amount1 := if Side_eqb side ask then Math_floor (sizeBTC / price * 100) else 0%Z in
    let txParams := mkTxParams amount0 amount1 upperTick lowerTick in
    let position :=
      mkPosition (now, side) side price sizeBTC lowerTick upperTick open now None
        txParams in
    Ok (mk (activePositions pm ++ [position]), position)).

Definition cancelAllPositions (pm : t) : t := mk [].

Definition getActivePositions (pm : t) : list Position := activePositions pm.

End PositionManager.

(** ** 3. Fill monitor: [class FillMonitor] *)

Module FillMonitor.
Import PositionManager.

(** The body of the loop of [checkFills] on one position: the position as the
    three tests leave it, and how many times it was pushed on [fills]. *)
Definition checkPosition (currentPrice : R) (now : Z) (position : Position)
  : Position * nat :=
  let lowerPrice := TickMath.tickToPrice (lowerTick position) in
  let upperPrice := TickMath.tickToPrice (upperTick position) in
  let isInRange := (currentPrice >=? lowerPrice) && (currentPrice <=? upperPrice) in
  let '(position, pushed) :=
    if isInRange && Status_eqb (status position) open
    then (setStatus position filling, 1%nat)
    else (position, 0%nat) in
  let '(position, pushed) :=
    if Side_eqb (side position) bid && (currentPrice >? upperPrice)
       && Status_eqb (status position) filling
    then (setFilledAt (setStatus position filled) now, S pushed)
    else (position, pushed) in
  let '(position, pushed) :=
    if Side_eqb (side position) ask && (currentPrice <? lowerPrice)
       && Status_eqb (status position) filling
    then (setFilledAt (setStatus position filled) now, S pushed)
    else (position, pushed) in
  (position, pushed).

(** [checkFills(positions, currentPrice)] changes the positions in place and
    returns [fills], an array of references to some of them.  The positions
    are returned as the call leaves them, and [fills] as the indices of the
    objects it refers to: [i] is the index of the first position of the
    list. *)
Fixpoint checkFillsFrom (i : nat) (positions : list Position) (currentPrice : R)
  (now : Z) : list Position * list nat :=
  match positions with
  | [] => ([], [])
  | position :: rest =>
      let '(position', pushed) := checkPosition currentPrice now position in
      let '(rest', fills) := checkFillsFrom (S i) rest currentPrice now in
      (position' :: rest', repeat i pushed ++ fills)
  end.

Definition checkFills (positions : list Position) (currentPrice : R) (now : Z)
  : list Position * list nat :=
  checkFillsFrom 0 positions currentPrice now.

End FillMonitor.

(** ** 4. Inventory tracker: [class InventoryTracker] *)

Module InventoryTracker.
Import PositionManager.

Inductive TradeType : Type := buy | sell.

Record Trade : Type := mkTrade {
  type : TradeType;
  price : R;
  btcAmount : R;
  radAmount : R;
  timestamp : Z
}.

Record t : Type := mk {
  btc : R;
  rad : R;
  targetRatio : R;
  trades : list Trade
}.

Definition new : t := mk 0 0 0.5 [].

(** [recordFill(position, fillPrice)]; it reads [side] and [sizeBTC] of the
    position and nothing else of it. *)
Definition recordFill (inv : t) (position : Position) (fillPrice : R) (now : Z) : t :=
  match side position with
  | bid =>
      mk (btc inv - sizeBTC position)
         (rad inv + sizeBTC position / fillPrice * 100)
         (targetRatio inv)
         (trades inv ++
          [mkTrade buy fillPrice (sizeBTC position)
             (sizeBTC position / fillPrice * 100) now])
  | ask =>
      let radSold := sizeBTC position / fillPrice * 100 in
      mk (btc inv + sizeBTC position)
         (rad inv - radSold)
         (targetRatio inv)
         (trades inv ++ [mkTrade sell fillPrice (sizeBTC position) radSold now])
  end.

Definition getImbalance (inv : t) (currentPrice : R) : R :=
  let totalValueBTC := btc inv + (rad inv / 100 * currentPrice) in
  if JS.eqb totalValueBTC 0 then 0
  else
    let btcPct := btc inv / totalValueBTC in
    btcPct - targetRatio inv.

Definition DEFAULT_THRESHOLD : R := 0.15.

Definition needsRebalance (inv : t) (currentPrice threshold : R) : bool :=
  Math_abs (getImbalance inv currentPrice) >? threshold.

Definition getTotalValueBTC (inv : t) (currentPrice : R) : R :=
  btc inv + (rad inv / 100 * currentPrice).

Definition init (inv : t) (btcAmount currentPrice : R) : t :=
  mk (btcAmount / 2) ((btcAmount / 2) / currentPrice * 100)
     (targetRatio inv) (trades inv).

End InventoryTracker.

(** ** 5. Spread calculator: [class SpreadCalculator] *)

Module SpreadCalculator.

Record t : Type := mk {
  baseSpreadBPS : R;
  minSpreadBPS : R;
  maxSpreadBPS : R
}.

Definition new : t := mk 100 50 200.

Record Spread : Type := mkSpread {
  spreadBPS : R;
  bidSpread : R;
  askSpread : R
}.

Definition calculateSpread (sc : t) (inventory : InventoryTracker.t)
  (currentPrice recentVolatility poolVolume24h : R) : Spread :=
  let spreadBPS := baseSpreadBPS sc in
  let imbalance := InventoryTracker.getImbalance inventory currentPrice in
  let spreadBPS :=
    if imbalance >? 0.1 then spreadBPS * 1.2
    else if imbalance <? -0.1 then spreadBPS * 1.2
    else spreadBPS in
  let spreadBPS :=
    if recentVolatility >? 0.05 then spreadBPS * 1.5 else spreadBPS in
  let spreadBPS :=
    if poolVolume24h <? 100 then spreadBPS * 1.3 else spreadBPS in
  let spreadBPS := Math_max (minSpreadBPS sc) (Math_min (maxSpreadBPS sc) spreadBPS) in
  mkSpread spreadBPS (spreadBPS / 2) (spreadBPS / 2).

Record Quotes : Type := mkQuotes {
  quoteBid : R;
  quoteAsk : R;
  quoteMid : R;
  quoteSpread : R;
  quoteSpreadBPS : R
}.

Definition getQuotes (sc : t) (currentPrice : R) (spread : Spread)
  (inventory : InventoryTracker.t) : Quotes :=
  let imbalance := InventoryTracker.getImbalance inventory currentPrice in
  let bidSpread := bidSpread spread in
  let askSpread := askSpread spread in
  let '(bidSpread, askSpread) :=
    if imbalance >? 0.1 then (bidSpread * 1.2, askSpread * 0.8)
    else if imbalance <? -0.1 then (bidSpread * 0.8, askSpread * 1.2)
    else (bidSpread, askSpread) in
  let bidPrice := currentPrice * (1 - bidSpread / 10000) in
  let askPrice := currentPrice * (1 + askSpread / 10000) in
  mkQuotes bidPrice askPrice currentPrice (askPrice - bidPrice)
    ((askPrice - bidPrice) / currentPrice * 10000).

End SpreadCalculator.

(** ** 6. Main orchestration loop: [class MarketMaker] *)

Module MarketMaker.
Import PositionManager.

Record RiskLimits : Type := mkRiskLimits {
  maxLoss : R;
  maxInventorySkew : R;
  minPoolTVL : R
}.

Record Config : Type := mkConfig {
  updateFrequency : Z;
  orderSizeBTC : R;
  maxPositions : Z;
  riskLimits : RiskLimits
}.

Record PnL : Type := mkPnL {
  realized : R;
  unrealized : R;
  fees : R;
  pnlTrades : Z
}.

Record t : Type := mk {
  positionManager : PositionManager.t;
  inventory : InventoryTracker.t;
  spreadCalc : SpreadCalculator.t;
  config : Config;
  initialCapital : R;
  running : bool;
  pnl : PnL
}.

Definition new (initialCapitalBTC : R) : t :=
  mk PositionManager.new InventoryTracker.new SpreadCalculator.new
     (mkConfig 10000 0.0001 10 (mkRiskLimits (-0.1) 0.2 10000))
     initialCapitalBTC false (mkPnL 0 0 0 0).

Definition init (mm : t) (currentPrice : R) : t :=
  mk (positionManager mm)
     (InventoryTracker.init (inventory mm) (initialCapital mm) currentPrice)
     (spreadCalc mm) (config mm) (initialCapital mm) (running mm) (pnl mm).

(** The pool data [fetchPool] returns; the call is external, so a cycle takes
    its result as an input.  [mockPool] is the data the code has in place of
    the call. *)
Record Pool : Type := mkPool {
  volume24h : R;
  tvl : R;
  token0Reserve : R;
  token1Reserve : R
}.

Definition mockPool : Pool := mkPool 425.69 143320.55 1.8222 42500000.

(** [calculatePrice(pool)].  With a RAD reserve of 0 the source divides by
    zero and returns [Infinity] or [NaN], for which the model has no value:
    the properties below take a positive price, which needs a reserve that
    is not 0, or exclude that reserve. *)
Definition calculatePrice (pool : Pool) : R :=
  token0Reserve pool / (token1Reserve pool / 100).

(** [rebalance(currentPrice)] executes nothing: it logs the swap it computed.
    The logged swap is its result here, [None] when it logs none. *)
Inductive Swap : Type :=
| BTC_to_RAD (btcAmount : R)
| RAD_to_BTC (radAmount : R).

Definition rebalance (mm : t) (currentPrice : R) : option Swap :=
  let imbalance := InventoryTracker.getImbalance (inventory mm) currentPrice in
  if Math_abs imbalance >? maxInventorySkew (riskLimits (config mm)) then
    let swapAmount :=
      InventoryTracker.getTotalValueBTC (inventory mm) currentPrice
      * Math_abs imbalance / 2 in
    if imbalance >? 0 then Some (BTC_to_RAD swapAmount)
    else Some (RAD_to_BTC (swapAmount / currentPrice * 100))
  else None.

(** The body of [for (const fill of fills)] in [run]: [fill] is the object
    that the reference of index [idx] points to, read as [checkFills] left
    it. *)
Definition recordOneFill (currentPrice : R) (now : Z) (positions : list Position)
  (acc : InventoryTracker.t * PnL) (idx : nat) : InventoryTracker.t * PnL :=
  let '(inventory, pnl) := acc in
  match nth_error positions idx with
  | Some fill =>
      if Status_eqb (status fill) filled then
        let inventory := InventoryTracker.recordFill inventory fill currentPrice now in
        let spreadCapture :=
          match side fill with
          | bid => (currentPrice - targetPrice fill) * sizeBTC fill / targetPrice fill
          | ask => (targetPrice fill - currentPrice) * sizeBTC fill / currentPrice
          end in
        (inventory,
         mkPnL (realized pnl + spreadCapture) (unrealized pnl) (fees pnl)
               (pnlTrades pnl + 1))
      else acc
  | None => acc
  end.

Definition recordFills (currentPrice : R) (now : Z) (positions : list Position)
  (fills : list nat) (acc : InventoryTracker.t * PnL) : InventoryTracker.t * PnL :=
  fold_left (recordOneFill currentPrice now positions) fills acc.

Definition shutdown (mm : t) : t :=
  mk (cancelAllPositions (positionManager mm)) (inventory mm) (spreadCalc mm)
     (config mm) (initialCapital mm) false (pnl mm).

(** One turn of the [while] loop of [run], steps 1 to 9, for the pool data
    [pool] and the clock reading [now].  An exception (only
    [createLimitOrder] can raise one) is caught by the loop: the state stays
    as the steps before it left it. *)
Definition cycle (pool : Pool) (now : Z) (mm : t) : t :=
  let currentPrice := calculatePrice pool in
  let '(positions, fills) :=
    FillMonitor.checkFills (getActivePositions (positionManager mm)) currentPrice now in
  let '(inventory, pnl) :=
    recordFills currentPrice now positions fills (inventory mm, pnl mm) in
  let mm := mk (PositionManager.mk positions) inventory (spreadCalc mm) (config mm)
               (initialCapital mm) (running mm) pnl in
  (* step 3: [rebalance] only logs *)
  let pm := cancelAllPositions (positionManager mm) in
  let spread :=
    SpreadCalculator.calculateSpread (spreadCalc mm) inventory currentPrice 0.03
      (volume24h pool) in
  let quotes :=
    SpreadCalculator.getQuotes (spreadCalc mm) currentPrice spread inventory in
  let caught (pm : PositionManager.t) : t :=
    mk pm inventory (spreadCalc mm) (config mm) (initialCapital mm) (running mm) pnl in
  match createLimitOrder pm bid (SpreadCalculator.quoteBid quotes)
          (orderSizeBTC (config mm)) now with
  | Throw _ => caught pm
  | Ok (pm, _) =>
      match createLimitOrder pm ask (SpreadCalculator.quoteAsk quotes)
              (orderSizeBTC (config mm)) now with
      | Throw _ => caught pm
      | Ok (pm, _) =>
          let currentValue := InventoryTracker.getTotalValueBTC inventory currentPrice in
          let pnl := mkPnL (realized pnl) (currentValue - initialCapital mm)
                           (fees pnl) (pnlTrades pnl) in
          let mm := mk pm inventory (spreadCalc mm) (config mm) (initialCapital mm)
                       (running mm) pnl in
          let totalPnL := realized pnl + unrealized pnl in
          if totalPnL / initialCapital mm <? maxLoss (riskLimits (config mm))
          then shutdown mm
          else mm
      end
  end.

(** [run()], for the successive pool data and clock readings [inputs]. *)
Fixpoint runLoop (inputs : list (Pool * Z)) (mm : t) : t :=
  match inputs with
  | [] => mm
  | (pool, now) :: rest =>
      if running mm then runLoop rest (cycle pool now mm) else mm
  end.

Definition run (inputs : list (Pool * Z)) (mm : t) : t :=
  runLoop inputs
    (mk (positionManager mm) (inventory mm) (spreadCalc mm) (config mm)
        (initialCapital mm) true (pnl mm)).

End MarketMaker.

(** ** 7. Ladder engine: [class VolumeBot] *)

Module VolumeBot.

(** The fields of [MM_CONFIG] that the engine reads. *)
Record MMConfig : Type := mkMMConfig {
  globalStopLoss : R;
  rebalanceThreshold : R;
  radfiFeeRate : R;
  expectedFillRate : R
}.

(** [MM_CONFIG] of [production-config.js]. *)
Definition MM_CONFIG : MMConfig := mkMMConfig (-0.15) 0.10 0.01 0.01.

Record InventoryTarget : Type := mkTarget { targetBtc : R; targetToken : R }.

(** The fields of a token configuration that the engine reads. *)
Record TokenConfig : Type := mkTokenConfig {
  tokenPrice : R;
  ladderLevels : Z;
  pingPongEnabled : bool;
  reverseTradeRatio : R;
  inventoryTarget : option InventoryTarget
}.

Record Inventory : Type := mkInventory { btc : R; token : R }.

Record TradeRecord : Type := mkTradeRecord {
  tradeTimestamp : Z;
  tradeSide : Side;
  tradePrice : R;
  tradeVolume : R;
  tradePnl : R
}.

Record Metrics : Type := mkMetrics {
  volumeGenerated : R;
  volumeGenerated24h : R;
  tradingFeesPaid : R;
  netPnL : R;
  trades : list TradeRecord
}.

Record Position : Type := mkPosition {
  id : nat;
  side : Side;
  price : R;
  sizeBTC : R;
  sizeToken : R;
  status : Status
}.

Record Fill : Type := mkFill {
  fillId : nat;
  fillSide : Side;
  fillPrice : R;
  fillSizeBTC : R;
  fillSizeToken : R;
  value : R;
  fillPnl : R
}.

(** The bot: [marketPrice] is [this.marketData.price]. *)
Record t : Type := mk {
  tokenConfig : TokenConfig;
  allocation : R;
  inventory : Inventory;
  metrics : Metrics;
  positions : list Position;
  marketPrice : R
}.

Definition setInventory (bot : t) (inv : Inventory) : t :=
  mk (tokenConfig bot) (allocation bot) inv (metrics bot) (positions bot)
     (marketPrice bot).

Definition setMetrics (bot : t) (m : Metrics) : t :=
  mk (tokenConfig bot) (allocation bot) (inventory bot) m (positions bot)
     (marketPrice bot).

Definition setPositions (bot : t) (ps : list Position) : t :=
  mk (tokenConfig bot) (allocation bot) (inventory bot) (metrics bot) ps
     (marketPrice bot).

Definition marketSell (bot : t) (tokenAmount : R) : t :=
  let currentPrice := marketPrice bot in
  let btcReceived := tokenAmount * currentPrice in
  setInventory bot
    (mkInventory (btc (inventory bot) + btcReceived)
                 (token (inventory bot) - tokenAmount)).

Definition marketBuy (bot : t) (btcAmount : R) : t :=
  let currentPrice := marketPrice bot in
  let tokenReceived := btcAmount / currentPrice in
  setInventory bot
    (mkInventory (btc (inventory bot) - btcAmount)
                 (token (inventory bot) + tokenReceived)).

(** The fields [currentValue] and [inventory.btcRatio] of [getMetrics()]. *)
Definition currentValue (bot : t) : R :=
  btc (inventory bot) + (token (inventory bot) * marketPrice bot).

Definition btcRatio (bot : t) : R := btc (inventory bot) / currentValue bot.

Section Engine.

Variable config : MMConfig.

(** [detectFills()]: [random n] is the value of the [n]-th call of
    [Math.random()], [n] counting the calls made so far.  The result is the
    positions as the call leaves them, the fills and the new count. *)
Fixpoint detectFillsFrom (random : nat -> R) (n : nat) (positions : list Position)
  : list Position * list Fill * nat :=
  match positions with
  | [] => ([], [], n)
  | position :: rest =>
      if negb (Status_eqb (status position) open) then
        let '(rest', fills, n') := detectFillsFrom random n rest in
        (position :: rest', fills, n')
      else
        let fillChance := random n in
        if fillChance <? expectedFillRate config then
          let position' :=
            mkPosition (id position) (side position) (price position)
              (sizeBTC position) (sizeToken position) filled in
          let fill :=
            mkFill (id position) (side position) (price position)
              (sizeBTC position) (sizeToken position) (sizeBTC position) 0 in
          let '(rest', fills, n') := detectFillsFrom random (S n) rest in
          (position' :: rest', fill :: fills, n')
        else
          let '(rest', fills, n') := detectFillsFrom random (S n) rest in
          (position :: rest', fills, n')
  end.

(** The body of [for (const fill of fills)] in [checkFillsAndReverse]. *)
Definition reverseFill (now : Z) (bot : t) (fill : Fill) : t :=
  let bot :=
    match fillSide fill with
    | bid =>
        setInventory bot
          (mkInventory (btc (inventory bot) - fillSizeBTC fill)
                       (token (inventory bot) + fillSizeToken fill))
    | ask =>
        setInventory bot
          (mkInventory (btc (inventory bot) + fillSizeBTC fill)
                       (token (inventory bot) - fillSizeToken fill))
    end in
  let bot :=
    if pingPongEnabled (tokenConfig bot) then
      let reverseRatio := or_default (reverseTradeRatio (tokenConfig bot)) 0.5 in
      let bot :=
        match fillSide fill with
        | bid =>
            let sellAmount := fillSizeToken fill * reverseRatio in
            marketSell bot sellAmount
        | ask =>
            let buyAmount := fillSizeBTC fill * reverseRatio in
            marketBuy bot buyAmount
        end in
      let m := metrics bot in
      setMetrics bot
        (mkMetrics (volumeGenerated m + value fill * 2)
                   (volumeGenerated24h m + value fill * 2)
                   (tradingFeesPaid m) (netPnL m) (trades m))
    else
      let m := metrics bot in
      setMetrics bot
        (mkMetrics (volumeGenerated m + value fill)
                   (volumeGenerated24h m + value fill)
                   (tradingFeesPaid m) (netPnL m) (trades m)) in
  let m := metrics bot in
  let bot :=
    setMetrics bot
      (mkMetrics (volumeGenerated m) (volumeGenerated24h m) (tradingFeesPaid m)
                 (netPnL m)
                 (trades m ++
                  [mkTradeRecord now (fillSide fill) (fillPrice fill) (value fill)
                     (or_default (fillPnl fill) 0)])) in
  let radfiFee := value fill * radfiFeeRate config in
  let m := metrics bot in
  setMetrics bot
    (mkMetrics (volumeGenerated m) (volumeGenerated24h m)
               (tradingFeesPaid m + radfiFee) (netPnL m) (trades m)).

Definition checkFillsAndReverse (random : nat -> R) (n : nat) (now : Z) (bot : t)
  : t * nat :=
  let '(positions, fills, n') := detectFillsFrom random n (positions bot) in
  let bot := setPositions bot positions in
  (fold_left (reverseFill now) fills bot, n').

Definition rebalanceIfNeeded (bot : t) (target : InventoryTarget) : t :=
  let totalValueBTC :=
    btc (inventory bot) + (token (inventory bot) * marketPrice bot) in
  let currentBTCRatio := btc (inventory bot) / totalValueBTC in
  let targetBTCRatio := targetBtc target in
  let skew := Math_abs (currentBTCRatio - targetBTCRatio) in
  if skew >? rebalanceThreshold config then
    if currentBTCRatio >? targetBTCRatio then
      let btcToSpend := totalValueBTC * (currentBTCRatio - targetBTCRatio) in
      marketBuy bot btcToSpend
    else
      let btcTarget := totalValueBTC * (targetBTCRatio - currentBTCRatio) in
      let tokenToSell := btcTarget / marketPrice bot in
      marketSell bot tokenToSell
  else bot.

End Engine.

End VolumeBot.

(** ** 8. The rest of [class VolumeBot]: bias, ladder, risk check *)

Module VolumeBotCycle.
Import VolumeBot.

(** [this.marketData], the argument [token] of [calculateDirectionalBias]. *)
Record MarketData : Type := mkMarketData {
  mdPrice : R;
  marketCap : R;
  volume24h : R;
  poolTVL : R;
  priceChange7d : R
}.

Definition calculateDirectionalBias (token : MarketData) (ourDailyVolume : R) : R :=
  let mcapUSD := marketCap token in
  let ourVolumeRatio := Math_min (ourDailyVolume / volume24h token) 1 in
  let priceChange7d := or_default (priceChange7d token) 0 in
  let mcapBias := Math_max 0 ((5000000 - mcapUSD) / 5000000) * 0.15 in
  let volumeBias := Math_min (ourVolumeRatio * 0.05) 0.05 in
  let momentumBias := priceChange7d * 0.03 in
  mcapBias + volumeBias + momentumBias.

Definition getInventoryTarget (bias : R) : InventoryTarget :=
  let tokenPct := 0.5 + (bias / 2) in
  mkTarget (1 - tokenPct) tokenPct.

Definition initialPurchase (bot : t) : t :=
  let btcToSpend := allocation bot / 2 in
  let tokensReceived := btcToSpend / marketPrice bot in
  setInventory bot (mkInventory (allocation bot / 2) tokensReceived).

(** [placeBid] and [placeAsk]: the id of the new position is built from the
    clock and from one call of [Math.random()]; it is kept as the count [n]
    of that call. *)
Definition placeBid (n : nat) (bot : t) (price sizeBTC : R) : t :=
  setPositions bot
    (positions bot ++ [mkPosition n bid price sizeBTC (sizeBTC / price) open]).

Definition placeAsk (n : nat) (bot : t) (price sizeToken : R) : t :=
  setPositions bot
    (positions bot ++ [mkPosition n ask price (sizeToken * price) sizeToken open]).

(** The two loops of [placeLadderOrders], [remaining] turns from level [i]. *)
Fixpoint bidLadder (remaining i n : nat) (bot : t) (currentPrice btcPerOrder : R)
  : t :=
  match remaining with
  | O => bot
  | S remaining' =>
      let offsetPct := -0.025 - (INR i * 0.01) in
      let price := currentPrice * (1 + offsetPct) in
      let size := btcPerOrder in
      bidLadder remaining' (S i) (S n) (placeBid n bot price size)
        currentPrice btcPerOrder
  end.

Fixpoint askLadder (remaining i n : nat) (bot : t) (currentPrice tokenPerOrder : R)
  : t :=
  match remaining with
  | O => bot
  | S remaining' =>
      let offsetPct := 0.025 + (INR i * 0.01) in
      let price := currentPrice * (1 + offsetPct) in
      let size := tokenPerOrder in
      askLadder remaining' (S i) (S n) (placeAsk n bot price size)
        currentPrice tokenPerOrder
  end.

(** [placeLadderOrders(target)]; [target] is not read.  The result carries the
    count of the calls of [Math.random()] after the orders are placed. *)
Definition placeLadderOrders (n : nat) (bot : t) (target : InventoryTarget)
  : t * nat :=
  let currentPrice := marketPrice bot in
  let ladderLevels :=
    if (ladderLevels (tokenConfig bot) =? 0)%Z then 5%Z
    else ladderLevels (tokenConfig bot) in
  let btcPerOrder := btc (inventory bot) / IZR ladderLevels in
  let tokenPerOrder := token (inventory bot) / IZR ladderLevels in
  let levels := Z.to_nat ladderLevels in
  let bot := bidLadder levels 0 n bot currentPrice btcPerOrder in
  let bot := askLadder levels 0 (n + levels) bot currentPrice tokenPerOrder in
  (bot, (n + levels + levels)%nat).

(** The test [position.status === 'open'] of [detectFills] and
    [cancelAllPositions]. *)
Definition isOpen (q : Position) : bool := Status_eqb (status q) open.

(** [cancelAllPositions()]: the open positions are marked cancelled and the
    array is replaced by an empty one; nothing else refers to the old
    positions. *)
Definition cancelAllPositions (bot : t) : t := setPositions bot [].

(** [checkRiskLimits()]: the bot after the check, and whether [stop()] was
    called (which sets [running] to false and cancels all positions).  The
    exposure test only prints a warning. *)
Definition checkRiskLimits (config : MMConfig) (bot : t) : t * bool :=
  let totalValueBTC :=
    btc (inventory bot) + (token (inventory bot) * marketPrice bot) in
  let drawdown := (totalValueBTC - allocation bot) / allocation bot in
  if drawdown <? globalStopLoss config
  then (cancelAllPositions bot, true)
  else (bot, false).

(** The field [inventory.tokenRatio] of [getMetrics()]. *)
Definition tokenRatio (bot : t) : R :=
  (token (inventory bot) * marketPrice bot) / currentValue bot.

End VolumeBotCycle.

(** ** 9. The backtest: [class PriceSimulator] and the metrics *)

Module Backtest.

Record PricePoint : Type := mkPricePoint {
  pointTimestamp : Z;
  pointPrice : R;
  pointChange : R
}.

Record PriceSimulator : Type := mkSimulator {
  basePrice : R;
  volatility : R;
  currentPrice : R;
  history : list PricePoint
}.

Definition newSimulator (basePrice volatility : R) : PriceSimulator :=
  mkSimulator basePrice volatility basePrice [].

(** [nextPrice(timestep)], [random] being the value of [Math.random()] and
    [now] that of [Date.now()].  The source divides by [basePrice] and takes
    the square root of [timestep / 1440]: with a base price of 0 or a
    negative time step it returns [NaN], for which the model has no value;
    the properties below take a base price > 0 and a time step >= 0. *)
Definition nextPrice (sim : PriceSimulator) (timestep random : R) (now : Z)
  : PriceSimulator * R :=
  let meanReversion := 0.1 in
  let drift :=
    - meanReversion * (currentPrice sim - basePrice sim) / basePrice sim in
  let randomShock := (random - 0.5) * 2 in
  let volatilityComponent := volatility sim * sqrt (timestep / 1440) in
  let priceChange := drift + randomShock * volatilityComponent in
  let price := currentPrice sim * (1 + priceChange) in
  let price :=
    Math_max (basePrice sim * 0.5) (Math_min (basePrice sim * 2) price) in
  (mkSimulator (basePrice sim) (volatility sim) price
     (history sim ++ [mkPricePoint now price priceChange]),
   price).

(** [BACKTEST_CONFIG.updateFrequency], in minutes. *)
Definition updateFrequency : Z := 60.

(** The loop of [simulateDay()], [for (let i = 0; i < 1440; i += updateFrequency)],
    from the value [i]: at most [turns] turns are made.  [random k] is the
    value of the [k]-th call of [Math.random()]. *)
Fixpoint simulateFrom (turns : nat) (i : Z) (sim : PriceSimulator)
  (random : nat -> R) (k : nat) (now : Z) : PriceSimulator * list R :=
  match turns with
  | O => (sim, [])
  | S turns' =>
      if (i <? 1440)%Z then
        let '(sim, price) := nextPrice sim (IZR updateFrequency) (random k) now in
        let '(sim, prices) :=
          simulateFrom turns' (i + updateFrequency) sim random (S k) now in
        (sim, price :: prices)
      else (sim, [])
  end.

(** [simulateDay()]: 1440 turns are enough, [i] growing by 60 each turn. *)
Definition simulateDay (sim : PriceSimulator) (random : nat -> R) (k : nat)
  (now : Z) : PriceSimulator * list R :=
  simulateFrom 1440 0 sim random k now.

(** The loop of [calculateMetrics] that computes the maximal drawdown over
    the daily values: [acc] is [(peak, maxDD)]. *)
Definition drawdownStep (acc : R * R) (value : R) : R * R :=
  let '(peak, maxDD) := acc in
  let peak := if value >? peak then value else peak in
  let dd := (peak - value) / peak in
  let maxDD := if dd >? maxDD then dd else maxDD in
  (peak, maxDD).

Record DailyPnL : Type := mkDaily {
  day : Z;
  dayPnl : R;
  dayPnlPct : R;
  dayValue : R;
  dayPrice : R
}.

Record Results : Type := mkResults {
  winRate : R;
  sharpeRatio : R;
  maxDrawdown : R;
  apy : R
}.

(** [calculateMetrics(mm)]: [tradePnls] are the [pnl] of [results.trades].
    [Math.pow(x, 2)] is the square; the power of [apy] is modelled by
    [Math_pow], which stands for [Math.pow] on a positive base. *)
Definition calculateMetrics (initialBTC : R) (backtestDays : R) (finalPnL : R)
  (dailyPnL : list DailyPnL) (tradePnls : list R) : Results :=
  let dailyReturns := map (fun d => dayPnlPct d / 100) dailyPnL in
  let wins := List.length (filter (fun pnl => pnl >? 0) tradePnls) in
  let winRate := INR wins / Math_max (INR (List.length tradePnls)) 1 in
  let avgReturn :=
    fold_left (fun a b => a + b) dailyReturns 0 / INR (List.length dailyReturns) in
  let stdDev :=
    sqrt (fold_left (fun a b => a + (b - avgReturn) ^ 2) dailyReturns 0
          / INR (List.length dailyReturns)) in
  let sharpeRatio := avgReturn / stdDev * sqrt 365 in
  let maxDD := snd (fold_left drawdownStep (map dayValue dailyPnL) (initialBTC, 0)) in
  let totalReturn := finalPnL / initialBTC in
  let apy := (Math_pow (1 + totalReturn) (365 / backtestDays) - 1) * 100 in
  mkResults winRate sharpeRatio maxDD apy.

End Backtest.

(** ** Sample inputs *)

Module Samples.

(** A bid of 1 BTC at the target price 1 on the range of ticks [-200, 0],
    whose upper price is [1.0001 ^ 0 = 1]. *)
Definition bidOrder (s : Status) : PositionManager.Position :=
  PositionManager.mkPosition (0%Z, bid) bid 1 1 (-200) 0 s 0 None
    (PositionManager.mkTxParams 100000000 0 0 (-200)).

(** An inventory of 1 BTC and 100 RAD units, the state after
    [init(2, 1)]. *)
Definition balanced : InventoryTracker.t := InventoryTracker.mk 1 100 0.5 [].

(** An inventory of 3 BTC and 100 RAD units: at the price 1 it is worth
    4 BTC, 75% of it in BTC. *)
Definition btcHeavy : InventoryTracker.t := InventoryTracker.mk 3 100 0.5 [].


(** A market maker of initial capital 4 BTC holding [btcHeavy]. *)
Definition makerBtcHeavy : MarketMaker.t :=
  let mm := MarketMaker.new 4 in
  MarketMaker.mk (MarketMaker.positionManager mm) btcHeavy
    (MarketMaker.spreadCalc mm) (MarketMaker.config mm)
    (MarketMaker.initialCapital mm) true (MarketMaker.pnl mm).

(** A purchase of RAD for [amount] BTC, as an order that [recordFill] can
    apply. *)
Definition purchase (amount : R) : PositionManager.Position :=
  PositionManager.mkPosition (0%Z, bid) bid 1 amount 0 200 filled 0 None
    (PositionManager.mkTxParams 0 0 200 0).

(** Pool data whose price is [2 / (100 / 100) = 2]. *)
Definition poolAtTwo : MarketMaker.Pool := MarketMaker.mkPool 425.69 143320.55 2 100.

(** A ladder bot with ping-pong on and [reverseTradeRatio] 0.5, holding
    10 BTC and 10 tokens at the price 1, with one open bid of 1 BTC. *)
Definition ladderBot : VolumeBot.t :=
  VolumeBot.mk (VolumeBot.mkTokenConfig 1 5 true 0.5 None) 20
    (VolumeBot.mkInventory 10 10)
    (VolumeBot.mkMetrics 0 0 0 0 [])
    [VolumeBot.mkPosition 0 bid 1 1 1 open]
    1.

(** The fill of the open bid of [ladderBot]: 1 token for 1 BTC. *)
Definition ladderFill : VolumeBot.Fill := VolumeBot.mkFill 0 bid 1 1 1 1 0.

(** A ladder bot holding 0.8 BTC and 0.2 token at the price 1. *)
Definition btcHeavyBot : VolumeBot.t :=
  VolumeBot.mk (VolumeBot.mkTokenConfig 1 5 true 0.5 None) 1
    (VolumeBot.mkInventory 0.8 0.2)
    (VolumeBot.mkMetrics 0 0 0 0 [])
    []
    1.

(** The inventory target of the token configurations: 45% BTC, 55% token. *)
Definition target45 : VolumeBot.InventoryTarget := VolumeBot.mkTarget 0.45 0.55.

(** The same bot with ping-pong off. *)
Definition quietBot : VolumeBot.t :=
  VolumeBot.mk (VolumeBot.mkTokenConfig 1 5 false 0.5 None) 20
    (VolumeBot.mkInventory 10 10)
    (VolumeBot.mkMetrics 0 0 0 0 [])
    [VolumeBot.mkPosition 0 bid 1 1 1 open]
    1.

(** A ladder bot holding 0.5 BTC and 0.5 token at the price 1. *)
Definition evenBot : VolumeBot.t :=
  VolumeBot.mk (VolumeBot.mkTokenConfig 1 5 true 0.5 None) 1
    (VolumeBot.mkInventory 0.5 0.5)
    (VolumeBot.mkMetrics 0 0 0 0 [])
    []
    1.

(** The market data that [updateMarketData] builds for the RAD token. *)
Definition radMarket : VolumeBotCycle.MarketData :=
  VolumeBotCycle.mkMarketData 0.00033775 337749 426 143000 0.05.

End Samples.

(* ================================================================== *)
(** * Properties *)
(* ================================================================== *)

(** ** Comparisons and rounding *)

Section JSFacts.

Lemma ltb_spec (x y : R) : reflect (x < y) (x <? y).
Proof. unfold JS.ltb. destruct (Rlt_dec x y); constructor; assumption. Qed.

Lemma leb_spec (x y : R) : reflect (x <= y) (x <=? y).
Proof. unfold JS.leb. destruct (Rle_dec x y); constructor; assumption. Qed.

Lemma gtb_spec (x y : R) : reflect (y < x) (x >? y).
Proof. unfold JS.gtb. apply ltb_spec. Qed.

Lemma geb_spec (x y : R) : reflect (y <= x) (x >=? y).
Proof. unfold JS.geb. apply leb_spec. Qed.

Lemma eqb_spec (x y : R) : reflect (x = y) (JS.eqb x y).
Proof. unfold JS.eqb. destruct (Req_dec_T x y); constructor; assumption. Qed.

(** Rounding a quotient of integers is an integer division. *)
Lemma Math_round_div (t s : Z) :
  (0 < s)%Z -> Math_round (IZR t / IZR s) = ((2 * t + s) / (2 * s))%Z.
Proof.
  intros Hs. unfold Math_round. apply Zfloor_eq.
  assert (Hs' : 0 < IZR s) by (apply IZR_lt; exact Hs).
  pose proof (Z.div_mod (2 * t + s) (2 * s) ltac:(lia)) as Hdm.
  pose proof (Z.mod_pos_bound (2 * t + s) (2 * s) ltac:(lia)) as [Hr0 Hr1].
  set (q := ((2 * t + s) / (2 * s))%Z) in *.
  set (r := ((2 * t + s) mod (2 * s))%Z) in *.
  assert (Ht : 2 * IZR t + IZR s = 2 * IZR s * IZR q + IZR r).
  { rewrite <- !mult_IZR, <- !plus_IZR. f_equal. exact Hdm. }
  apply IZR_le in Hr0. apply IZR_lt in Hr1. rewrite mult_IZR in Hr1.
  replace (IZR t / IZR s + / 2) with ((2 * IZR t + IZR s) / (2 * IZR s))
    by (field; lra).
  rewrite Ht. split.
  - apply Rmult_le_reg_r with (2 * IZR s); [lra|].
    unfold Rdiv. rewrite Rmult_assoc, Rinv_l by lra. lra.
  - apply Rmult_lt_reg_r with (2 * IZR s); [lra|].
    unfold Rdiv. rewrite Rmult_assoc, Rinv_l by lra. lra.
Qed.

End JSFacts.

(** ** TickMath *)

Section TickMathFacts.
Import TickMath.

Lemma ln_base_pos : 0 < ln 1.0001.
Proof. rewrite <- ln_1. apply ln_increasing; lra. Qed.

(** [ln (1 + x) <= x], at the base. *)
Lemma ln_base_le : ln 1.0001 <= 0.0001.
Proof.
  destruct (Rle_or_lt (ln 1.0001) 0.0001) as [H | H]; [exact H | exfalso].
  apply exp_increasing in H. rewrite exp_ln in H by lra.
  pose proof (exp_ineq1_le 0.0001). lra.
Qed.

Lemma clampTick_bounds (t : Z) : (MIN_TICK <= clampTick t <= MAX_TICK)%Z.
Proof. unfold clampTick, MIN_TICK, MAX_TICK. lia. Qed.

Lemma clampTick_id (t : Z) : (MIN_TICK <= t <= MAX_TICK)%Z -> clampTick t = t.
Proof. unfold clampTick, MIN_TICK, MAX_TICK. lia. Qed.

Lemma tickToPrice_pos (t : Z) : 0 < tickToPrice t.
Proof. unfold tickToPrice, Math_pow, Rpower. apply exp_pos. Qed.

Lemma tickToPrice_0 : tickToPrice 0 = 1.
Proof. unfold tickToPrice, Math_pow. apply Rpower_O. lra. Qed.

Lemma tickToPrice_succ (t : Z) : tickToPrice (t + 1) = tickToPrice t * 1.0001.
Proof.
  unfold tickToPrice, Math_pow. rewrite plus_IZR, Rpower_plus, Rpower_1 by lra.
  reflexivity.
Qed.

Lemma tickToPrice_lt (t1 t2 : Z) : (t1 < t2)%Z -> tickToPrice t1 < tickToPrice t2.
Proof.
  intros H. unfold tickToPrice, Math_pow. apply Rpower_lt; [lra|].
  apply IZR_lt. exact H.
Qed.

Lemma tickToPrice_le (t1 t2 : Z) : (t1 <= t2)%Z -> tickToPrice t1 <= tickToPrice t2.
Proof.
  intros H. destruct (Z.eq_dec t1 t2) as [-> | Hne]; [lra|].
  left. apply tickToPrice_lt. lia.
Qed.

Lemma log_tickToPrice (t : Z) : ln (tickToPrice t) / ln 1.0001 = IZR t.
Proof.
  unfold tickToPrice, Math_pow. rewrite ln_Rpower. field.
  pose proof ln_base_pos. lra.
Qed.

(** The price is the base raised to its logarithm in that base. *)
Lemma price_as_power (p : R) : 0 < p -> Rpower 1.0001 (ln p / ln 1.0001) = p.
Proof.
  intros Hp. unfold Rpower.
  replace (ln p / ln 1.0001 * ln 1.0001) with (ln p)
    by (field; pose proof ln_base_pos; lra).
  apply exp_ln. exact Hp.
Qed.

(** The floor of the logarithm is the tick whose price is just below. *)
Lemma floor_log_brackets (p : R) :
  0 < p ->
  let f := Math_floor (Math_log p / Math_log 1.0001) in
  tickToPrice f <= p < tickToPrice (f + 1).
Proof.
  intros Hp f. unfold Math_floor, Math_log in f.
  destruct (Zfloor_bound (ln p / ln 1.0001)) as [Hlo Hhi]. fold f in Hlo, Hhi.
  pose proof (price_as_power p Hp) as E.
  unfold tickToPrice, Math_pow. split.
  - rewrite <- E. apply Rle_Rpower; [lra | exact Hlo].
  - rewrite <- E at 1. apply Rpower_lt; [lra | rewrite plus_IZR; exact Hhi].
Qed.

(** A price between the prices of two ticks has its logarithm between them. *)
Lemma log_between (p : R) (lo hi : Z) :
  0 < p -> tickToPrice lo <= p <= tickToPrice hi ->
  IZR lo <= ln p / ln 1.0001 <= IZR hi.
Proof.
  intros Hp [Hlo Hhi]. pose proof ln_base_pos as Hb.
  rewrite <- (log_tickToPrice lo), <- (log_tickToPrice hi).
  assert (Hln1 : ln (tickToPrice lo) <= ln p).
  { destruct Hlo as [Hlt | ->]; [left | right; reflexivity].
    apply ln_increasing; [apply tickToPrice_pos | exact Hlt]. }
  assert (Hln2 : ln p <= ln (tickToPrice hi)).
  { destruct Hhi as [Hlt | ->]; [left | right; reflexivity].
    apply ln_increasing; [exact Hp | exact Hlt]. }
  split; apply Rmult_le_compat_r; try (left; apply Rinv_0_lt_compat); assumption.
Qed.

Lemma priceToTick_positive (p : R) :
  0 < p -> priceToTick p = Ok (clampTick (Math_floor (Math_log p / Math_log 1.0001))).
Proof.
  intros Hp. unfold priceToTick. destruct (leb_spec p 0); [lra | reflexivity].
Qed.

Lemma priceToTick_nonpositive (p : R) :
  p <= 0 -> priceToTick p = Throw "Price must be positive".
Proof.
  intros Hp. unfold priceToTick. destruct (leb_spec p 0); [reflexivity | lra].
Qed.

(** Within the tick bounds, [nearestUsableTick] is the multiple of the
    spacing nearest to the tick, a tie going to the greater multiple. *)
Lemma nearestUsableTick_in_bounds (t s : Z) :
  (0 < s)%Z ->
  let rounded := ((2 * t + s) / (2 * s) * s)%Z in
  (MIN_TICK <= rounded <= MAX_TICK)%Z ->
  nearestUsableTick t s = rounded
  /\ (nearestUsableTick t s mod s = 0)%Z
  /\ (- s <= 2 * (t - nearestUsableTick t s) < s)%Z
  /\ (forall k : Z,
        (Z.abs (nearestUsableTick t s - t) <= Z.abs (k * s - t))%Z).
Proof.
  intros Hs rounded Hb.
  assert (E : nearestUsableTick t s = rounded).
  { unfold nearestUsableTick. rewrite Math_round_div by exact Hs.
    apply clampTick_id. exact Hb. }
  rewrite E. unfold rounded in *. clear E Hb rounded.
  pose proof (Z.div_mod (2 * t + s) (2 * s) ltac:(lia)) as Hdm.
  pose proof (Z.mod_pos_bound (2 * t + s) (2 * s) ltac:(lia)) as Hr.
  set (q := ((2 * t + s) / (2 * s))%Z) in *.
  set (r := ((2 * t + s) mod (2 * s))%Z) in *.
  split; [reflexivity|]. split; [apply Z.mod_mul; lia|].
  split; [nia|].
  intros k.
  destruct (Z.eq_dec k q) as [-> | Hne]; [lia|].
  assert (Hk : (k <= q - 1 \/ q + 1 <= k)%Z) by lia.
  destruct Hk as [Hk | Hk]; nia.
Qed.

(** The failing tick is one that [limitOrderRange] passes: at a price whose
    tick is [MAX_TICK], such as e^100, the upper tick of the range is
    [nearestUsableTick (MAX_TICK + 200) 200], which is [MAX_TICK] itself. *)
Lemma limitOrderRange_at_top :
  limitOrderRange (exp 100) DEFAULT_TICK_SPACING = Ok (mkRange 887200 887272).
Proof.
  pose proof ln_base_pos as Hb. pose proof ln_base_le as Hle.
  assert (Etick : priceToTick (exp 100) = Ok MAX_TICK).
  { rewrite priceToTick_positive by apply exp_pos. f_equal.
    unfold Math_log. rewrite ln_exp.
    assert (Hbig : (1000000 <= Math_floor (100 / ln 1.0001))%Z).
    { apply Zfloor_lub.
      apply Rmult_le_reg_r with (ln 1.0001); [exact Hb|].
      unfold Rdiv. rewrite Rmult_assoc, Rinv_l by lra. lra. }
    unfold clampTick, MIN_TICK, MAX_TICK. lia. }
  unfold limitOrderRange. rewrite Etick. simpl. unfold nearestUsableTick.
  rewrite !Math_round_div by (unfold DEFAULT_TICK_SPACING; lia).
  reflexivity.
Qed.

End TickMathFacts.

(** C4, the code at a failing input.  [nearestUsableTick] clamps the rounded
    tick with [Math.max]/[Math.min], and the bounds are no multiples of the
    spacing: at tick 887472 and spacing 200 the rounded tick 887400 is clamped
    to [MAX_TICK] = 887272, which leaves the remainder 72. *)
Theorem nearestUsableTick_clamped_not_multiple :
  TickMath.nearestUsableTick 887472 200 = 887272%Z
  /\ (TickMath.nearestUsableTick 887472 200 mod 200 = 72)%Z.
Proof.
  assert (E : TickMath.nearestUsableTick 887472 200 = 887272%Z).
  { unfold TickMath.nearestUsableTick. rewrite Math_round_div by lia.
    reflexivity. }
  rewrite E. split; reflexivity.
Qed.

(** C5 as stated fails: at the price 1.00008 the logarithm in base 1.0001 is
    about 0.8; the code takes its floor, tick 0, where rounding gives 1. *)
Lemma priceToTick_floors_not_rounds :
  0 < 1.00008
  /\ TickMath.priceToTick 1.00008 = Ok 0%Z
  /\ TickMath.clampTick (Math_round (Math_log 1.00008 / Math_log 1.0001)) = 1%Z
  /\ TickMath.priceToTick 1.00008
     <> Ok (TickMath.clampTick (Math_round (Math_log 1.00008 / Math_log 1.0001))).
Proof.
  pose proof ln_base_pos as Hb.
  assert (H0 : 0 < ln 1.00008) by (rewrite <- ln_1; apply ln_increasing; lra).
  assert (H1 : ln 1.00008 < ln 1.0001) by (apply ln_increasing; lra).
  assert (H2 : ln 1.0001 < 2 * ln 1.00008).
  { replace (2 * ln 1.00008) with (ln (1.00008 * 1.00008))
      by (rewrite ln_mult by lra; lra).
    apply ln_increasing; lra. }
  set (x := Math_log 1.00008 / Math_log 1.0001).
  assert (Hx : / 2 < x < 1).
  { unfold x, Math_log. split.
    - apply Rmult_lt_reg_r with (ln 1.0001); [exact Hb|].
      unfold Rdiv. rewrite Rmult_assoc, Rinv_l by lra. lra.
    - apply Rmult_lt_reg_r with (ln 1.0001); [exact Hb|].
      unfold Rdiv. rewrite Rmult_assoc, Rinv_l by lra. lra. }
  assert (Efloor : Math_floor x = 0%Z) by (apply Zfloor_eq; simpl; lra).
  assert (Eround : Math_round x = 1%Z) by (apply Zfloor_eq; simpl; lra).
  assert (Etick : TickMath.priceToTick 1.00008 = Ok 0%Z).
  { rewrite priceToTick_positive by lra. fold x. rewrite Efloor. reflexivity. }
  rewrite Etick, Eround. repeat split; try lra; try reflexivity.
  discriminate.
Qed.

(** C5, amended: [priceToTick] throws "Price must be positive" for every
    price <= 0, and for every price > 0 returns the floor of
    log(price)/log(1.0001), the integer [f] with
    f <= log(price)/log(1.0001) < f + 1, clamped to [MIN_TICK, MAX_TICK]. *)
Theorem priceToTick_floor_clamped (price : R) :
  (price <= 0 -> TickMath.priceToTick price = Throw "Price must be positive")
  /\ (0 < price ->
      exists f : Z,
        IZR f <= Math_log price / Math_log 1.0001 < IZR f + 1
        /\ TickMath.priceToTick price = Ok (TickMath.clampTick f)
        /\ (TickMath.MIN_TICK <= TickMath.clampTick f <= TickMath.MAX_TICK)%Z).
Proof.
  split.
  - apply priceToTick_nonpositive.
  - intros Hp. exists (Math_floor (Math_log price / Math_log 1.0001)).
    split; [apply Zfloor_bound|].
    split; [apply priceToTick_positive; exact Hp | apply clampTick_bounds].
Qed.

Lemma priceToTick_floor_clamped_witness :
  TickMath.priceToTick 0 = Throw "Price must be positive"
  /\ exists f : Z,
       IZR f <= Math_log 1 / Math_log 1.0001 < IZR f + 1
       /\ TickMath.priceToTick 1 = Ok (TickMath.clampTick f)
       /\ (TickMath.MIN_TICK <= TickMath.clampTick f <= TickMath.MAX_TICK)%Z.
Proof.
  split.
  - apply (proj1 (priceToTick_floor_clamped 0)). lra.
  - apply (proj2 (priceToTick_floor_clamped 1)). lra.
Defined.

(** C6: for every positive price [p] between the prices of [MIN_TICK] and
    [MAX_TICK], [priceToTick p] returns a tick [t] with
    tickToPrice t <= p < tickToPrice t * 1.0001, so [tickToPrice (priceToTick p)]
    is within a factor 1.0001 of [p]; [tickToPrice] is defined and positive at
    every tick and increases with the tick. *)
Theorem tickToPrice_priceToTick_one_tick :
  (forall p : R,
      0 < p ->
      TickMath.tickToPrice TickMath.MIN_TICK <= p <= TickMath.tickToPrice TickMath.MAX_TICK ->
      exists t : Z,
        TickMath.priceToTick p = Ok t
        /\ TickMath.tickToPrice t <= p < TickMath.tickToPrice t * 1.0001)
  /\ (forall t : Z, 0 < TickMath.tickToPrice t)
  /\ (forall t1 t2 : Z,
        (t1 <= t2)%Z -> TickMath.tickToPrice t1 <= TickMath.tickToPrice t2)
  /\ (forall t1 t2 : Z,
        (t1 < t2)%Z -> TickMath.tickToPrice t1 < TickMath.tickToPrice t2).
Proof.
  split; [| split; [exact tickToPrice_pos | split;
                    [exact tickToPrice_le | exact tickToPrice_lt]]].
  intros p Hp Hrange.
  exists (Math_floor (Math_log p / Math_log 1.0001)).
  pose proof (log_between p _ _ Hp Hrange) as [Hlo Hhi].
  pose proof (Zfloor_bound (ln p / ln 1.0001)) as [Hf _].
  assert (Hin : (TickMath.MIN_TICK <= Math_floor (Math_log p / Math_log 1.0001)
                 <= TickMath.MAX_TICK)%Z).
  { unfold Math_floor, Math_log. split.
    - apply Zfloor_lub. exact Hlo.
    - apply le_IZR. lra. }
  split.
  - rewrite priceToTick_positive by exact Hp.
    rewrite clampTick_id by exact Hin. reflexivity.
  - rewrite <- tickToPrice_succ. apply floor_log_brackets. exact Hp.
Qed.

Lemma tickToPrice_priceToTick_one_tick_witness :
  exists t : Z,
    TickMath.priceToTick 1 = Ok t
    /\ TickMath.tickToPrice t <= 1 < TickMath.tickToPrice t * 1.0001.
Proof.
  apply (proj1 tickToPrice_priceToTick_one_tick 1).
  - lra.
  - rewrite <- tickToPrice_0.
    split; apply tickToPrice_le; unfold TickMath.MIN_TICK, TickMath.MAX_TICK; lia.
Defined.

(** ** InventoryTracker *)

Section InventoryFacts.
Import InventoryTracker.

Lemma getImbalance_nonzero (inv : t) (p : R) :
  btc inv + rad inv / 100 * p <> 0 ->
  getImbalance inv p = btc inv / (btc inv + rad inv / 100 * p) - targetRatio inv.
Proof.
  intros H. unfold getImbalance.
  destruct (eqb_spec (btc inv + rad inv / 100 * p) 0); [contradiction | reflexivity].
Qed.

(** A fill at the valuation price does not change the value of the
    inventory. *)
Lemma recordFill_value_neutral (inv : t) (position : PositionManager.Position)
  (p : R) (now : Z) :
  p <> 0 ->
  getTotalValueBTC (recordFill inv position p now) p = getTotalValueBTC inv p.
Proof.
  intros Hp. unfold getTotalValueBTC, recordFill.
  destruct (PositionManager.side position); simpl; field; exact Hp.
Qed.

End InventoryFacts.

(** C1 as stated fails: recording the same bid of 1 BTC a second time changes
    both balances again, from (0, 200) to (-1, 300). *)
Lemma recordFill_twice_counts_twice :
  let order := Samples.bidOrder filled in
  let once := InventoryTracker.recordFill Samples.balanced order 1 0 in
  let twice := InventoryTracker.recordFill once order 1 0 in
  InventoryTracker.btc once = 0 /\ InventoryTracker.rad once = 200
  /\ InventoryTracker.btc twice = -1 /\ InventoryTracker.rad twice = 300
  /\ InventoryTracker.btc twice <> InventoryTracker.btc once
  /\ InventoryTracker.rad twice <> InventoryTracker.rad once.
Proof.
  simpl. repeat split; try lra.
Qed.

(** C1, amended: [recordFill] has no guard on the order id and never fails;
    every call with the same order applies the same change of balances again
    and appends one more trade record.  After [n] calls a bid has taken
    n * sizeBTC from the BTC balance and added n * (sizeBTC / fillPrice * 100)
    to the RAD balance, an ask the opposite. *)
Theorem recordFill_applies_every_call
  (inv : InventoryTracker.t) (order : PositionManager.Position)
  (fillPrice : R) (now : Z) (n : nat) :
  let after :=
    Nat.iter n (fun i => InventoryTracker.recordFill i order fillPrice now) inv in
  let radAmount := PositionManager.sizeBTC order / fillPrice * 100 in
  match PositionManager.side order with
  | bid =>
      InventoryTracker.btc after
      = InventoryTracker.btc inv - INR n * PositionManager.sizeBTC order
      /\ InventoryTracker.rad after = InventoryTracker.rad inv + INR n * radAmount
  | ask =>
      InventoryTracker.btc after
      = InventoryTracker.btc inv + INR n * PositionManager.sizeBTC order
      /\ InventoryTracker.rad after = InventoryTracker.rad inv - INR n * radAmount
  end
  /\ List.length (InventoryTracker.trades after)
     = (List.length (InventoryTracker.trades inv) + n)%nat.
Proof.
  induction n as [| n IH].
  - simpl. destruct (PositionManager.side order); repeat split; try lra; lia.
  - cbv zeta in IH |- *. rewrite S_INR. simpl Nat.iter.
    set (prev := Nat.iter n _ inv) in *.
    destruct IH as [IHbal IHlen].
    unfold InventoryTracker.recordFill.
    destruct (PositionManager.side order); simpl;
      rewrite ?length_app, ?IHlen; simpl;
      (split; [destruct IHbal as [-> ->]; split; ring | lia]).
Qed.

(** ** FillMonitor *)

Section FillMonitorFacts.
Import PositionManager FillMonitor.

Lemma Side_eqb_spec (a b : Side) : reflect (a = b) (Side_eqb a b).
Proof. destruct a, b; constructor; congruence. Qed.

Lemma Status_eqb_spec (a b : Status) : reflect (a = b) (Status_eqb a b).
Proof. destruct a, b; constructor; congruence. Qed.

(** Case analysis on every comparison of prices met in the goal. *)
Ltac price_cases :=
  repeat match goal with
    | |- context [JS.leb ?x ?y] => destruct (leb_spec x y)
    | |- context [JS.ltb ?x ?y] => destruct (ltb_spec x y)
    end.

(** The three tests of [checkFills] leave the identity, the side and the
    range of a position as they are. *)
Lemma checkPosition_same_order (currentPrice : R) (now : Z) (p : Position) :
  let p' := fst (checkPosition currentPrice now p) in
  id p' = id p /\ side p' = side p
  /\ lowerTick p' = lowerTick p /\ upperTick p' = upperTick p.
Proof.
  unfold checkPosition, JS.geb, JS.gtb.
  destruct p as [i [|] tp sz lo up [| | |] cr fa tx]; simpl;
    price_cases; simpl; auto.
Qed.

(** The status that one pass of the tests gives to a position. *)
Lemma checkPosition_status (currentPrice : R) (now : Z) (p : Position) :
  let lowerPrice := TickMath.tickToPrice (lowerTick p) in
  let upperPrice := TickMath.tickToPrice (upperTick p) in
  let p' := fst (checkPosition currentPrice now p) in
  match status p with
  | open =>
      (status p' = filling <-> lowerPrice <= currentPrice <= upperPrice)
      /\ (status p' = open \/ status p' = filling)
  | filling =>
      (status p' = filled <->
         (side p = bid /\ upperPrice < currentPrice)
         \/ (side p = ask /\ currentPrice < lowerPrice))
      /\ (status p' = filling \/ status p' = filled)
  | filled => status p' = filled
  | cancelled => status p' = cancelled
  end.
Proof.
  unfold checkPosition, JS.geb, JS.gtb.
  destruct p as [i [|] tp sz lo up [| | |] cr fa tx]; simpl;
    price_cases; simpl; try lra;
    repeat split; auto; try discriminate;
    try (intros; lra);
    try (intros [[? ?] | [? ?]]; (discriminate || lra)).
Qed.

Lemma checkFillsFrom_nth (positions : list Position) (currentPrice : R) (now : Z) :
  forall (i k : nat),
    nth_error (fst (checkFillsFrom i positions currentPrice now)) k
    = option_map (fun p => fst (checkPosition currentPrice now p))
        (nth_error positions k).
Proof.
  induction positions as [| p rest IH]; intros i k.
  - destruct k; reflexivity.
  - simpl. destruct (checkPosition currentPrice now p) as [p' pushed] eqn:Ep.
    specialize (IH (S i)).
    destruct (checkFillsFrom (S i) rest currentPrice now) as [rest' fills].
    destruct k; simpl.
    + rewrite Ep. reflexivity.
    + apply IH.
Qed.

Lemma checkFills_nth (positions : list Position) (currentPrice : R) (now : Z)
  (k : nat) (p p' : Position) :
  nth_error positions k = Some p ->
  nth_error (fst (checkFills positions currentPrice now)) k = Some p' ->
  p' = fst (checkPosition currentPrice now p).
Proof.
  unfold checkFills. rewrite checkFillsFrom_nth. intros ->. simpl. congruence.
Qed.

End FillMonitorFacts.

(** C3: in one run of [checkFills] at the price [currentPrice], a position
    found [open] becomes [filling] only when the price lies within
    [lowerPrice, upperPrice] of its range; a position found [filling] becomes
    [filled] only when it is a bid and the price is above [upperPrice], or an
    ask and the price is below [lowerPrice]; and a position found [open] never
    comes out [filled]. *)
Theorem checkFills_two_phase
  (positions : list PositionManager.Position) (currentPrice : R) (now : Z)
  (k : nat) (p p' : PositionManager.Position) :
  nth_error positions k = Some p ->
  nth_error (fst (FillMonitor.checkFills positions currentPrice now)) k = Some p' ->
  let lowerPrice := TickMath.tickToPrice (PositionManager.lowerTick p) in
  let upperPrice := TickMath.tickToPrice (PositionManager.upperTick p) in
  (PositionManager.status p = open -> PositionManager.status p' = filling ->
   lowerPrice <= currentPrice <= upperPrice)
  /\ (PositionManager.status p = filling -> PositionManager.status p' = filled ->
      (PositionManager.side p = bid /\ upperPrice < currentPrice)
      \/ (PositionManager.side p = ask /\ currentPrice < lowerPrice))
  /\ (PositionManager.status p = open -> PositionManager.status p' <> filled).
Proof.
  intros Hp Hp' lowerPrice upperPrice.
  rewrite (checkFills_nth _ _ _ _ _ _ Hp Hp').
  pose proof (checkPosition_status currentPrice now p) as H. cbv zeta in H.
  fold lowerPrice upperPrice in H.
  split; [| split].
  - intros Ho Hf. rewrite Ho in H. apply H. exact Hf.
  - intros Ho Hf. rewrite Ho in H. apply H. exact Hf.
  - intros Ho Hf. rewrite Ho in H. destruct H as [_ [H | H]];
      rewrite H in Hf; discriminate.
Qed.

(** The open sample bid, whose range is [1.0001 ^ -200, 1], starts filling
    at the price 1. *)
Lemma checkFills_bid_enters_range :
  FillMonitor.checkFills [Samples.bidOrder open] 1 0
  = ([Samples.bidOrder filling], [0%nat]).
Proof.
  pose proof (tickToPrice_le (-200) 0 ltac:(lia)) as Hlo.
  pose proof tickToPrice_0 as E0. rewrite E0 in Hlo.
  unfold FillMonitor.checkFills, FillMonitor.checkFillsFrom,
    FillMonitor.checkPosition, JS.geb, JS.gtb. simpl.
  rewrite E0.
  destruct (leb_spec (TickMath.tickToPrice (-200)) 1); [| lra].
  destruct (leb_spec 1 1); [| lra].
  destruct (ltb_spec 1 1); [lra |]. simpl.
  reflexivity.
Qed.

(** The sample bid, once filling, is filled at the price 2, above its
    range. *)
Lemma checkFills_bid_crossed :
  FillMonitor.checkFills [Samples.bidOrder filling] 2 0
  = ([PositionManager.setFilledAt (Samples.bidOrder filled) 0], [0%nat]).
Proof.
  pose proof tickToPrice_0 as E0.
  unfold FillMonitor.checkFills, FillMonitor.checkFillsFrom,
    FillMonitor.checkPosition, JS.geb, JS.gtb. simpl.
  rewrite E0.
  destruct (leb_spec 2 1); [lra |].
  destruct (ltb_spec 1 2); [| lra].
  rewrite andb_false_r. simpl.
  reflexivity.
Qed.

Lemma checkFills_two_phase_witness :
  let p := Samples.bidOrder open in
  let p' := Samples.bidOrder filling in
  let lowerPrice := TickMath.tickToPrice (PositionManager.lowerTick p) in
  let upperPrice := TickMath.tickToPrice (PositionManager.upperTick p) in
  (PositionManager.status p = open -> PositionManager.status p' = filling ->
   lowerPrice <= 1 <= upperPrice)
  /\ (PositionManager.status p = filling -> PositionManager.status p' = filled ->
      (PositionManager.side p = bid /\ upperPrice < 1)
      \/ (PositionManager.side p = ask /\ 1 < lowerPrice))
  /\ (PositionManager.status p = open -> PositionManager.status p' <> filled).
Proof.
  apply (checkFills_two_phase [Samples.bidOrder open] 1 0 0).
  - reflexivity.
  - rewrite checkFills_bid_enters_range. reflexivity.
Defined.

(** ** SpreadCalculator *)

Section SpreadFacts.
Import SpreadCalculator.

Lemma clamp_bounds (lo hi x : R) :
  lo <= hi -> lo <= Math_max lo (Math_min hi x) <= hi.
Proof.
  intros H. unfold Math_max, Math_min, Rmax, Rmin.
  destruct (Rle_dec hi x), (Rle_dec lo hi); try lra;
    destruct (Rle_dec lo x); lra.
Qed.

Lemma clamp_lower (lo hi x : R) : lo <= Math_max lo (Math_min hi x).
Proof. unfold Math_max. apply Rmax_l. Qed.

Lemma clamp_monotone (lo hi x y : R) :
  x <= y -> Math_max lo (Math_min hi x) <= Math_max lo (Math_min hi y).
Proof.
  intros H. unfold Math_max, Math_min.
  apply Rle_max_compat_l. apply Rle_min_compat_l. exact H.
Qed.

(** The spread before the volatility and volume factors, as a function of
    the imbalance: it only grows with the size of the imbalance. *)
Lemma skew_factor_monotone (base i1 i2 : R) :
  0 <= base -> Rabs i1 <= Rabs i2 ->
  (if i1 >? 0.1 then base * 1.2 else if i1 <? -0.1 then base * 1.2 else base)
  <= (if i2 >? 0.1 then base * 1.2 else if i2 <? -0.1 then base * 1.2 else base).
Proof.
  intros Hb Habs. unfold JS.gtb.
  revert Habs. unfold Rabs.
  destruct (Rcase_abs i1), (Rcase_abs i2); intros Habs;
    destruct (ltb_spec 0.1 i1), (ltb_spec i1 (-0.1)),
             (ltb_spec 0.1 i2), (ltb_spec i2 (-0.1)); lra.
Qed.

Lemma spreadBPS_calculateSpread (sc : t) (inv : InventoryTracker.t)
  (p vol volume : R) :
  spreadBPS (calculateSpread sc inv p vol volume)
  = Math_max (minSpreadBPS sc) (Math_min (maxSpreadBPS sc)
      (let s :=
         let i := InventoryTracker.getImbalance inv p in
         if i >? 0.1 then baseSpreadBPS sc * 1.2
         else if i <? -0.1 then baseSpreadBPS sc * 1.2
         else baseSpreadBPS sc in
       let s := if vol >? 0.05 then s * 1.5 else s in
       if volume <? 100 then s * 1.3 else s)).
Proof. reflexivity. Qed.

(** With a positive minimum spread, both half-spreads that [getQuotes]
    applies are positive. *)
Lemma getQuotes_brackets (sc : t) (p : R) (spread : Spread)
  (inv : InventoryTracker.t) :
  0 < p -> 0 < bidSpread spread -> 0 < askSpread spread ->
  quoteBid (getQuotes sc p spread inv) < p < quoteAsk (getQuotes sc p spread inv).
Proof.
  intros Hp Hb Ha. unfold getQuotes, JS.gtb.
  destruct (ltb_spec 0.1 (InventoryTracker.getImbalance inv p));
    [| destruct (ltb_spec (InventoryTracker.getImbalance inv p) (-0.1))];
    simpl; split; nra.
Qed.

End SpreadFacts.

(** C7: for a calculator with [baseSpreadBPS >= 0] and
    [minSpreadBPS <= maxSpreadBPS] (the constructor sets 100, 50 and 200), the
    [spreadBPS] of [calculateSpread] does not decrease when the absolute
    imbalance grows, nor when [recentVolatility] grows, the other inputs being
    the same, and it always lies in [minSpreadBPS, maxSpreadBPS]. *)
Theorem calculateSpread_monotone_clamped (sc : SpreadCalculator.t) :
  0 <= SpreadCalculator.baseSpreadBPS sc ->
  SpreadCalculator.minSpreadBPS sc <= SpreadCalculator.maxSpreadBPS sc ->
  (forall (inv1 inv2 : InventoryTracker.t) (p1 p2 vol volume : R),
      Rabs (InventoryTracker.getImbalance inv1 p1)
      <= Rabs (InventoryTracker.getImbalance inv2 p2) ->
      SpreadCalculator.spreadBPS
        (SpreadCalculator.calculateSpread sc inv1 p1 vol volume)
      <= SpreadCalculator.spreadBPS
           (SpreadCalculator.calculateSpread sc inv2 p2 vol volume))
  /\ (forall (inv : InventoryTracker.t) (p vol1 vol2 volume : R),
        vol1 <= vol2 ->
        SpreadCalculator.spreadBPS
          (SpreadCalculator.calculateSpread sc inv p vol1 volume)
        <= SpreadCalculator.spreadBPS
             (SpreadCalculator.calculateSpread sc inv p vol2 volume))
  /\ (forall (inv : InventoryTracker.t) (p vol volume : R),
        SpreadCalculator.minSpreadBPS sc
        <= SpreadCalculator.spreadBPS
             (SpreadCalculator.calculateSpread sc inv p vol volume)
        <= SpreadCalculator.maxSpreadBPS sc).
Proof.
  intros Hbase Hminmax. split; [| split].
  - intros inv1 inv2 p1 p2 vol volume Habs.
    rewrite !spreadBPS_calculateSpread. cbv zeta.
    apply clamp_monotone.
    pose proof (skew_factor_monotone _ _ _ Hbase Habs) as Hs.
    destruct (vol >? 0.05), (volume <? 100); lra.
  - intros inv p vol1 vol2 volume Hvol.
    rewrite !spreadBPS_calculateSpread. cbv zeta.
    apply clamp_monotone.
    set (i := InventoryTracker.getImbalance inv p).
    assert (Hs : 0 <= (if i >? 0.1 then SpreadCalculator.baseSpreadBPS sc * 1.2
                       else if i <? -0.1 then SpreadCalculator.baseSpreadBPS sc * 1.2
                       else SpreadCalculator.baseSpreadBPS sc)).
    { destruct (i >? 0.1), (i <? -0.1); lra. }
    unfold JS.gtb in *.
    destruct (ltb_spec 0.05 vol1), (ltb_spec 0.05 vol2), (volume <? 100); lra.
  - intros inv p vol volume. rewrite spreadBPS_calculateSpread.
    apply clamp_bounds. exact Hminmax.
Qed.

Lemma getImbalance_balanced : InventoryTracker.getImbalance Samples.balanced 1 = 0.
Proof. rewrite getImbalance_nonzero; simpl; lra. Qed.

Lemma getImbalance_btcHeavy : InventoryTracker.getImbalance Samples.btcHeavy 1 = 0.25.
Proof. rewrite getImbalance_nonzero; simpl; lra. Qed.

Lemma calculateSpread_monotone_clamped_witness :
  let spread inv vol :=
    SpreadCalculator.spreadBPS
      (SpreadCalculator.calculateSpread SpreadCalculator.new inv 1 vol 425.69) in
  spread Samples.balanced 0.03 <= spread Samples.btcHeavy 0.03
  /\ spread Samples.balanced 0.03 <= spread Samples.balanced 0.25
  /\ 50 <= spread Samples.balanced 0.03 <= 200.
Proof.
  assert (Hbase : 0 <= SpreadCalculator.baseSpreadBPS SpreadCalculator.new)
    by (simpl; lra).
  assert (Hminmax : SpreadCalculator.minSpreadBPS SpreadCalculator.new
                    <= SpreadCalculator.maxSpreadBPS SpreadCalculator.new)
    by (simpl; lra).
  destruct (calculateSpread_monotone_clamped SpreadCalculator.new Hbase Hminmax)
    as [Hskew [Hvol Hclamp]].
  split; [| split].
  - apply Hskew. rewrite getImbalance_balanced, getImbalance_btcHeavy.
    rewrite Rabs_R0. apply Rabs_pos.
  - apply Hvol. lra.
  - apply (Hclamp Samples.balanced 1 0.03 425.69).
Defined.

(** C10: for every price > 0 and every inventory, with a calculator whose
    [minSpreadBPS] is positive (the constructor sets 50), the quotes that
    [getQuotes] derives from the spread of [calculateSpread] satisfy
    bid < currentPrice < ask, hence bid < ask. *)
Theorem getQuotes_never_cross (sc : SpreadCalculator.t) (inv : InventoryTracker.t)
  (currentPrice recentVolatility poolVolume24h : R) :
  0 < currentPrice ->
  0 < SpreadCalculator.minSpreadBPS sc ->
  let spread :=
    SpreadCalculator.calculateSpread sc inv currentPrice recentVolatility
      poolVolume24h in
  let quotes := SpreadCalculator.getQuotes sc currentPrice spread inv in
  SpreadCalculator.quoteBid quotes < currentPrice
  /\ currentPrice < SpreadCalculator.quoteAsk quotes
  /\ SpreadCalculator.quoteBid quotes < SpreadCalculator.quoteAsk quotes.
Proof.
  intros Hp Hmin spread quotes.
  assert (Hs : 0 < SpreadCalculator.spreadBPS spread).
  { unfold spread. rewrite spreadBPS_calculateSpread.
    eapply Rlt_le_trans; [exact Hmin | apply clamp_lower]. }
  assert (Hq : SpreadCalculator.quoteBid quotes < currentPrice
               < SpreadCalculator.quoteAsk quotes).
  { apply getQuotes_brackets; [exact Hp | |]; unfold spread; simpl;
      unfold spread in Hs; rewrite spreadBPS_calculateSpread in Hs; lra. }
  lra.
Qed.

Lemma getQuotes_never_cross_witness :
  let spread :=
    SpreadCalculator.calculateSpread SpreadCalculator.new Samples.btcHeavy 1 0.03
      425.69 in
  let quotes :=
    SpreadCalculator.getQuotes SpreadCalculator.new 1 spread Samples.btcHeavy in
  SpreadCalculator.quoteBid quotes < 1
  /\ 1 < SpreadCalculator.quoteAsk quotes
  /\ SpreadCalculator.quoteBid quotes < SpreadCalculator.quoteAsk quotes.
Proof.
  apply (getQuotes_never_cross SpreadCalculator.new Samples.btcHeavy 1 0.03 425.69).
  - lra.
  - simpl. lra.
Defined.

(** ** MarketMaker *)

Section MarketMakerFacts.
Import MarketMaker.

Lemma createLimitOrder_positive (pm : PositionManager.t) (s : Side)
  (price size : R) (now : Z) :
  0 < price ->
  exists position : PositionManager.Position,
    PositionManager.createLimitOrder pm s price size now
    = Ok (PositionManager.mk (PositionManager.activePositions pm ++ [position]),
          position)
    /\ PositionManager.status position = open.
Proof.
  intros Hp. unfold PositionManager.createLimitOrder, TickMath.limitOrderRange.
  rewrite priceToTick_positive by exact Hp. simpl.
  eexists. split; reflexivity.
Qed.

(** The bid quote is positive when the greatest spread is at most 100%. *)
Lemma quoteBid_positive (sc : SpreadCalculator.t) (inv : InventoryTracker.t)
  (p vol volume : R) :
  0 < p ->
  0 < SpreadCalculator.minSpreadBPS sc <= SpreadCalculator.maxSpreadBPS sc ->
  SpreadCalculator.maxSpreadBPS sc <= 10000 ->
  0 < SpreadCalculator.quoteBid
        (SpreadCalculator.getQuotes sc p
           (SpreadCalculator.calculateSpread sc inv p vol volume) inv).
Proof.
  intros Hp [Hmin Hle] Hmax.
  assert (Hs : 0 < SpreadCalculator.spreadBPS
                     (SpreadCalculator.calculateSpread sc inv p vol volume)
               <= 10000).
  { rewrite spreadBPS_calculateSpread.
    match goal with
    | |- _ < Math_max _ (Math_min _ ?x) <= _ =>
        pose proof (clamp_bounds _ _ x Hle) as Hc
    end.
    lra. }
  assert (Hb : SpreadCalculator.bidSpread
                 (SpreadCalculator.calculateSpread sc inv p vol volume)
               = SpreadCalculator.spreadBPS
                   (SpreadCalculator.calculateSpread sc inv p vol volume) / 2)
    by reflexivity.
  revert Hs Hb.
  generalize (SpreadCalculator.calculateSpread sc inv p vol volume) as spread.
  intros spread Hs Hb.
  unfold SpreadCalculator.getQuotes, JS.gtb.
  destruct (ltb_spec 0.1 (InventoryTracker.getImbalance inv p));
    [| destruct (ltb_spec (InventoryTracker.getImbalance inv p) (-0.1))];
    simpl; rewrite Hb; apply Rmult_lt_0_compat; lra.
Qed.

(** The accounts after one turn of the loop that no exception interrupts:
    the fills of [checkFills] are recorded, then [unrealized] is set to the
    value of the inventory minus the initial capital. *)
Lemma cycle_accounts (pool : Pool) (now : Z) (mm : t) :
  let currentPrice := calculatePrice pool in
  let checked :=
    FillMonitor.checkFills (PositionManager.activePositions (positionManager mm))
      currentPrice now in
  let recorded :=
    recordFills currentPrice now (fst checked) (snd checked) (inventory mm, pnl mm) in
  0 < currentPrice ->
  0 < SpreadCalculator.minSpreadBPS (spreadCalc mm)
    <= SpreadCalculator.maxSpreadBPS (spreadCalc mm) ->
  SpreadCalculator.maxSpreadBPS (spreadCalc mm) <= 10000 ->
  inventory (cycle pool now mm) = fst recorded
  /\ initialCapital (cycle pool now mm) = initialCapital mm
  /\ pnl (cycle pool now mm)
     = mkPnL (realized (snd recorded))
         (InventoryTracker.getTotalValueBTC (fst recorded) currentPrice
          - initialCapital mm)
         (fees (snd recorded)) (pnlTrades (snd recorded))
  /\ spreadCalc (cycle pool now mm) = spreadCalc mm
  /\ Forall (fun p => PositionManager.status p = open)
       (PositionManager.activePositions (positionManager (cycle pool now mm))).
Proof.
  intros currentPrice checked recorded Hp Hsc Hmax.
  unfold cycle. fold currentPrice.
  unfold PositionManager.getActivePositions. fold checked.
  destruct checked as [positions fills]. simpl fst in *. simpl snd in *.
  fold recorded. destruct recorded as [inv acc]. simpl fst. simpl snd.
  cbn [positionManager inventory spreadCalc config initialCapital running pnl].
  pose proof (quoteBid_positive (spreadCalc mm) inv currentPrice 0.03
                (volume24h pool) Hp Hsc Hmax) as Hbid.
  assert (Hask : 0 < SpreadCalculator.quoteAsk
                       (SpreadCalculator.getQuotes (spreadCalc mm) currentPrice
                          (SpreadCalculator.calculateSpread (spreadCalc mm) inv
                             currentPrice 0.03 (volume24h pool)) inv)).
  { pose proof (getQuotes_brackets (spreadCalc mm) currentPrice
                  (SpreadCalculator.calculateSpread (spreadCalc mm) inv
                     currentPrice 0.03 (volume24h pool)) inv Hp) as Hq.
    pose proof (clamp_lower (SpreadCalculator.minSpreadBPS (spreadCalc mm))
                  (SpreadCalculator.maxSpreadBPS (spreadCalc mm))) as Hlow.
    assert (Hs : 0 < SpreadCalculator.spreadBPS
                       (SpreadCalculator.calculateSpread (spreadCalc mm) inv
                          currentPrice 0.03 (volume24h pool))).
    { rewrite spreadBPS_calculateSpread.
      eapply Rlt_le_trans; [apply Hsc | apply Hlow]. }
    rewrite spreadBPS_calculateSpread in Hs.
    destruct Hq as [_ Hq]; [simpl; lra | simpl; lra | lra]. }
  destruct (createLimitOrder_positive
              (PositionManager.cancelAllPositions (PositionManager.mk positions))
              bid _ (orderSizeBTC (config mm)) now Hbid) as [o1 [E1 Ho1]].
  rewrite E1.
  match goal with
  | |- context [PositionManager.createLimitOrder ?pm1 ask] =>
      destruct (createLimitOrder_positive pm1 ask _ (orderSizeBTC (config mm))
                  now Hask) as [o2 [E2 Ho2]]
  end.
  rewrite E2.
  match goal with |- context [if ?c then _ else _] => destruct c end;
    simpl; repeat split; try reflexivity;
    repeat constructor; assumption.
Qed.

(** A reference to a position that is not [filled] records nothing. *)
Lemma recordFills_none_filled (currentPrice : R) (now : Z)
  (positions : list PositionManager.Position) (fills : list nat)
  (acc : InventoryTracker.t * PnL) :
  Forall (fun p => PositionManager.status p <> filled) positions ->
  recordFills currentPrice now positions fills acc = acc.
Proof.
  intros Hall. unfold recordFills. revert acc.
  induction fills as [| idx fills IH]; intros acc; [reflexivity|].
  simpl. rewrite <- (IH acc) at 2. f_equal.
  unfold recordOneFill. destruct acc as [inv pl].
  destruct (nth_error positions idx) as [fill |] eqn:En; [| reflexivity].
  apply nth_error_In in En. rewrite Forall_forall in Hall.
  specialize (Hall fill En).
  destruct (Status_eqb_spec (PositionManager.status fill) filled);
    [contradiction | reflexivity].
Qed.

Lemma checkFills_open_stay_unfilled
  (positions : list PositionManager.Position) (currentPrice : R) (now : Z) :
  Forall (fun p => PositionManager.status p = open) positions ->
  Forall (fun p => PositionManager.status p <> filled)
    (fst (FillMonitor.checkFills positions currentPrice now)).
Proof.
  intros Hall. rewrite Forall_forall in *. intros p' Hin.
  apply In_nth_error in Hin. destruct Hin as [k Hk].
  unfold FillMonitor.checkFills in Hk. rewrite checkFillsFrom_nth in Hk.
  destruct (nth_error positions k) as [p |] eqn:Ep; [| discriminate].
  simpl in Hk. injection Hk as <-.
  apply nth_error_In in Ep. specialize (Hall p Ep).
  pose proof (checkPosition_status currentPrice now p) as H. cbv zeta in H.
  rewrite Hall in H. destruct H as [_ [H | H]]; rewrite H; discriminate.
Qed.






End MarketMakerFacts.



(** ** VolumeBot *)

Section VolumeBotFacts.
Import VolumeBot.

Variable config : MMConfig.

Lemma rebalanceIfNeeded_within_threshold (bot : t) (target : InventoryTarget) :
  Rabs (btcRatio bot - targetBtc target) <= rebalanceThreshold config ->
  rebalanceIfNeeded config bot target = bot.
Proof.
  unfold btcRatio, currentValue.
  intros H. unfold rebalanceIfNeeded, JS.gtb, Math_abs.
  match goal with |- context [JS.ltb ?x ?y] => destruct (ltb_spec x y) end;
    [lra | reflexivity].
Qed.

Lemma rebalanceIfNeeded_beyond_threshold (bot : t) (target : InventoryTarget) :
  marketPrice bot <> 0 ->
  currentValue bot <> 0 ->
  rebalanceThreshold config < Rabs (btcRatio bot - targetBtc target) ->
  let bot' := rebalanceIfNeeded config bot target in
  marketPrice bot' = marketPrice bot
  /\ currentValue bot' = currentValue bot
  /\ btcRatio bot' = targetBtc target.
Proof.
  unfold btcRatio, currentValue.
  intros Hp Hv H. unfold rebalanceIfNeeded, JS.gtb, Math_abs.
  match goal with |- context [JS.ltb ?x ?y] => destruct (ltb_spec x y) end;
    [| lra].
  match goal with |- context [JS.ltb ?x ?y] => destruct (ltb_spec x y) end;
    unfold marketBuy, marketSell; simpl;
    (split; [reflexivity |]);
    (assert (Hval : forall a b c d : R, a + b = c -> c <> 0 -> d = a / c -> a / (a + b) = d)
       by (intros a b c d <- Hc ->; reflexivity));
    (split; [field; auto | apply Hval with
       (c := btc (inventory bot) + token (inventory bot) * marketPrice bot);
       [field; auto | exact Hv | field; auto]]).
Qed.

(** What the body of the loop of [checkFillsAndReverse] does with a fill
    when ping-pong is on. *)
Lemma reverseFill_ping_pong (now : Z) (bot : t) (fill : Fill) :
  pingPongEnabled (tokenConfig bot) = true ->
  let ratio := or_default (reverseTradeRatio (tokenConfig bot)) 0.5 in
  let bot' := reverseFill config now bot fill in
  volumeGenerated (metrics bot')
  = volumeGenerated (metrics bot) + value fill * 2
  /\ volumeGenerated24h (metrics bot')
     = volumeGenerated24h (metrics bot) + value fill * 2
  /\ tradingFeesPaid (metrics bot')
     = tradingFeesPaid (metrics bot) + value fill * radfiFeeRate config
  /\ match fillSide fill with
     | bid =>
         token (inventory bot')
         = token (inventory bot) + fillSizeToken fill - fillSizeToken fill * ratio
         /\ btc (inventory bot')
            = btc (inventory bot) - fillSizeBTC fill
              + fillSizeToken fill * ratio * marketPrice bot
     | ask =>
         token (inventory bot')
         = token (inventory bot) - fillSizeToken fill
           + fillSizeBTC fill * ratio / marketPrice bot
         /\ btc (inventory bot')
            = btc (inventory bot) + fillSizeBTC fill - fillSizeBTC fill * ratio
     end.
Proof.
  intros Hpp. unfold reverseFill.
  destruct (fillSide fill); simpl; rewrite Hpp; simpl;
    repeat split; lra.
Qed.

Lemma reverseFill_no_ping_pong (now : Z) (bot : t) (fill : Fill) :
  pingPongEnabled (tokenConfig bot) = false ->
  let bot' := reverseFill config now bot fill in
  volumeGenerated (metrics bot') = volumeGenerated (metrics bot) + value fill
  /\ volumeGenerated24h (metrics bot')
     = volumeGenerated24h (metrics bot) + value fill.
Proof.
  intros Hpp. unfold reverseFill.
  destruct (fillSide fill); simpl; rewrite Hpp; simpl; split; reflexivity.
Qed.

End VolumeBotFacts.

(** C8 as stated fails.  [VolumeBot.rebalanceIfNeeded] trades only beyond
    [rebalanceThreshold]: with 50% of the value in BTC and a target of 45% it
    makes no swap and the ratio stays at 50%.  [MarketMaker.rebalance]
    computes a swap of half the excess: with 75% in BTC and a target of 50% it
    logs a swap of 0.5 BTC out of the 4 BTC of value, which applied at the
    price 1 leaves an imbalance of 0.125. *)
Lemma rebalance_not_always_to_target :
  (VolumeBot.rebalanceIfNeeded VolumeBot.MM_CONFIG Samples.evenBot Samples.target45
   = Samples.evenBot
   /\ VolumeBot.btcRatio
        (VolumeBot.rebalanceIfNeeded VolumeBot.MM_CONFIG Samples.evenBot
           Samples.target45) = 0.5
   /\ VolumeBot.btcRatio
        (VolumeBot.rebalanceIfNeeded VolumeBot.MM_CONFIG Samples.evenBot
           Samples.target45)
      <> VolumeBot.targetBtc Samples.target45)
  /\ (MarketMaker.rebalance Samples.makerBtcHeavy 1
      = Some (MarketMaker.BTC_to_RAD 0.5)
      /\ InventoryTracker.getImbalance
           (InventoryTracker.recordFill Samples.btcHeavy (Samples.purchase 0.5) 1 0)
           1 = 0.125).
Proof.
  assert (Eratio : VolumeBot.btcRatio Samples.evenBot = 0.5).
  { unfold VolumeBot.btcRatio, VolumeBot.currentValue. simpl. lra. }
  assert (Esame : VolumeBot.rebalanceIfNeeded VolumeBot.MM_CONFIG Samples.evenBot
                    Samples.target45 = Samples.evenBot).
  { apply rebalanceIfNeeded_within_threshold. rewrite Eratio. simpl.
    rewrite Rabs_right; lra. }
  split.
  - rewrite Esame, Eratio. simpl. repeat split; lra.
  - split.
    + unfold MarketMaker.rebalance, JS.gtb, Math_abs.
      change (MarketMaker.inventory Samples.makerBtcHeavy) with Samples.btcHeavy.
      rewrite getImbalance_btcHeavy. rewrite (Rabs_right 0.25) by lra.
      simpl MarketMaker.maxInventorySkew.
      destruct (ltb_spec 0.2 0.25); [| lra].
      destruct (ltb_spec 0 0.25); [| lra].
      do 2 f_equal. unfold InventoryTracker.getTotalValueBTC. simpl. lra.
    + rewrite getImbalance_nonzero; simpl; lra.
Qed.

(** C8, amended: when the BTC share of the value is further than
    [rebalanceThreshold] from the target (price and value not zero), the swap
    that [VolumeBot.rebalanceIfNeeded] executes at the market price keeps the
    value and brings the BTC share to exactly the target; within the threshold
    it makes no swap and leaves the bot as it is. *)
Theorem rebalanceIfNeeded_reaches_target
  (config : VolumeBot.MMConfig) (bot : VolumeBot.t)
  (target : VolumeBot.InventoryTarget) :
  let skew := Rabs (VolumeBot.btcRatio bot - VolumeBot.targetBtc target) in
  let bot' := VolumeBot.rebalanceIfNeeded config bot target in
  (VolumeBot.marketPrice bot <> 0 ->
   VolumeBot.currentValue bot <> 0 ->
   VolumeBot.rebalanceThreshold config < skew ->
   VolumeBot.currentValue bot' = VolumeBot.currentValue bot
   /\ VolumeBot.btcRatio bot' = VolumeBot.targetBtc target)
  /\ (skew <= VolumeBot.rebalanceThreshold config -> bot' = bot).
Proof.
  intros skew bot'. split.
  - intros Hp Hv Hs.
    apply (rebalanceIfNeeded_beyond_threshold config bot target Hp Hv Hs).
  - apply rebalanceIfNeeded_within_threshold.
Qed.

Lemma rebalanceIfNeeded_reaches_target_witness :
  (VolumeBot.currentValue
     (VolumeBot.rebalanceIfNeeded VolumeBot.MM_CONFIG Samples.btcHeavyBot
        Samples.target45)
   = VolumeBot.currentValue Samples.btcHeavyBot
   /\ VolumeBot.btcRatio
        (VolumeBot.rebalanceIfNeeded VolumeBot.MM_CONFIG Samples.btcHeavyBot
           Samples.target45)
      = VolumeBot.targetBtc Samples.target45)
  /\ VolumeBot.rebalanceIfNeeded VolumeBot.MM_CONFIG Samples.evenBot Samples.target45
     = Samples.evenBot.
Proof.
  split.
  - apply (proj1 (rebalanceIfNeeded_reaches_target VolumeBot.MM_CONFIG
                    Samples.btcHeavyBot Samples.target45)).
    + simpl. lra.
    + unfold VolumeBot.currentValue. simpl. lra.
    + unfold VolumeBot.btcRatio, VolumeBot.currentValue. simpl.
      rewrite Rabs_right; lra.
  - apply (proj2 (rebalanceIfNeeded_reaches_target VolumeBot.MM_CONFIG
                    Samples.evenBot Samples.target45)).
    unfold VolumeBot.btcRatio, VolumeBot.currentValue. simpl.
    rewrite Rabs_right; lra.
Defined.

(** C9 as stated fails: with [reverseTradeRatio] 0.5 the reverse trade sells
    back half of the fill.  A bid fill of 1 token for 1 BTC at the price 1
    turns 10 BTC and 10 tokens into 9.5 BTC and 10.5 tokens: the token
    inventory changes, and the BTC inventory goes down by 0.5, while the fee
    recorded is 0.01. *)
Lemma ping_pong_fill_changes_inventory :
  let bot' :=
    fst (VolumeBot.checkFillsAndReverse VolumeBot.MM_CONFIG (fun _ => 0) 0 0
           Samples.ladderBot) in
  VolumeBot.volumeGenerated (VolumeBot.metrics bot') = 2
  /\ VolumeBot.tradingFeesPaid (VolumeBot.metrics bot') = 0.01
  /\ VolumeBot.token (VolumeBot.inventory bot') = 10.5
  /\ VolumeBot.btc (VolumeBot.inventory bot') = 9.5
  /\ VolumeBot.token (VolumeBot.inventory bot')
     <> VolumeBot.token (VolumeBot.inventory Samples.ladderBot).
Proof.
  unfold VolumeBot.checkFillsAndReverse. simpl.
  destruct (ltb_spec 0 0.01); [| lra]. simpl.
  unfold JS.or_default. destruct (eqb_spec 0.5 0); simpl; repeat split; lra.
Qed.

(** C9, amended: with ping-pong on, each detected fill of value X adds
    exactly 2X to [volumeGenerated] and to [volumeGenerated24h] (X when
    ping-pong is off) and X * radfiFeeRate to [tradingFeesPaid]; the reverse
    trade is for the fraction [reverseTradeRatio] (0.5 when it is 0) of the
    fill, at the market price, so a bid fill changes the token inventory by
    sizeToken * (1 - ratio) and the BTC inventory by
    - sizeBTC + sizeToken * ratio * price, an ask fill changes the token
    inventory by - sizeToken + sizeBTC * ratio / price and the BTC inventory
    by sizeBTC * (1 - ratio); no fee is taken from the inventory. *)
Theorem reverseFill_accounting
  (config : VolumeBot.MMConfig) (now : Z) (bot : VolumeBot.t)
  (fill : VolumeBot.Fill) :
  let ratio :=
    or_default (VolumeBot.reverseTradeRatio (VolumeBot.tokenConfig bot)) 0.5 in
  let bot' := VolumeBot.reverseFill config now bot fill in
  let X := VolumeBot.value fill in
  let m := VolumeBot.metrics bot in
  let m' := VolumeBot.metrics bot' in
  let inv := VolumeBot.inventory bot in
  let inv' := VolumeBot.inventory bot' in
  VolumeBot.tradingFeesPaid m'
  = VolumeBot.tradingFeesPaid m + X * VolumeBot.radfiFeeRate config
  /\ (VolumeBot.pingPongEnabled (VolumeBot.tokenConfig bot) = false ->
      VolumeBot.volumeGenerated m' = VolumeBot.volumeGenerated m + X
      /\ VolumeBot.volumeGenerated24h m' = VolumeBot.volumeGenerated24h m + X)
  /\ (VolumeBot.pingPongEnabled (VolumeBot.tokenConfig bot) = true ->
      VolumeBot.volumeGenerated m' = VolumeBot.volumeGenerated m + 2 * X
      /\ VolumeBot.volumeGenerated24h m' = VolumeBot.volumeGenerated24h m + 2 * X
      /\ match VolumeBot.fillSide fill with
         | bid =>
             VolumeBot.token inv'
             = VolumeBot.token inv + VolumeBot.fillSizeToken fill * (1 - ratio)
             /\ VolumeBot.btc inv'
                = VolumeBot.btc inv - VolumeBot.fillSizeBTC fill
                  + VolumeBot.fillSizeToken fill * ratio * VolumeBot.marketPrice bot
         | ask =>
             VolumeBot.token inv'
             = VolumeBot.token inv - VolumeBot.fillSizeToken fill
               + VolumeBot.fillSizeBTC fill * ratio / VolumeBot.marketPrice bot
             /\ VolumeBot.btc inv'
                = VolumeBot.btc inv + VolumeBot.fillSizeBTC fill * (1 - ratio)
         end).
Proof.
  intros ratio bot' X m m' inv inv'. split; [| split].
  - unfold m', bot', VolumeBot.reverseFill.
    destruct (VolumeBot.fillSide fill); simpl;
      destruct (VolumeBot.pingPongEnabled (VolumeBot.tokenConfig bot));
      reflexivity.
  - intros Hpp. apply (reverseFill_no_ping_pong config now bot fill Hpp).
  - intros Hpp.
    pose proof (reverseFill_ping_pong config now bot fill Hpp) as H.
    cbv zeta in H. fold ratio bot' in H.
    destruct H as [Hv [Hv24 [_ Hinv]]].
    unfold m', m, inv', inv, X. rewrite Hv, Hv24.
    split; [lra | split; [lra |]].
    destruct (VolumeBot.fillSide fill); destruct Hinv as [-> ->]; split; lra.
Qed.

Lemma reverseFill_accounting_witness :
  (let bot' := VolumeBot.reverseFill VolumeBot.MM_CONFIG 0 Samples.ladderBot
                 Samples.ladderFill in
   VolumeBot.volumeGenerated (VolumeBot.metrics bot') = 0 + 2 * 1
   /\ VolumeBot.volumeGenerated24h (VolumeBot.metrics bot') = 0 + 2 * 1
   /\ VolumeBot.token (VolumeBot.inventory bot')
      = 10 + 1 * (1 - or_default 0.5 0.5)
   /\ VolumeBot.btc (VolumeBot.inventory bot')
      = 10 - 1 + 1 * or_default 0.5 0.5 * 1)
  /\ (let bot' := VolumeBot.reverseFill VolumeBot.MM_CONFIG 0 Samples.quietBot
                    Samples.ladderFill in
      VolumeBot.volumeGenerated (VolumeBot.metrics bot') = 0 + 1
      /\ VolumeBot.volumeGenerated24h (VolumeBot.metrics bot') = 0 + 1).
Proof.
  split.
  - apply (proj2 (proj2 (reverseFill_accounting VolumeBot.MM_CONFIG 0
                           Samples.ladderBot Samples.ladderFill))).
    reflexivity.
  - apply (proj1 (proj2 (reverseFill_accounting VolumeBot.MM_CONFIG 0
                           Samples.quietBot Samples.ladderFill))).
    reflexivity.
Defined.

(* ================================================================== *)
(** * Further properties of the code *)
(* ================================================================== *)

(** ** TickMath: usable ticks and order ranges *)

Section UsableTickFacts.
Import TickMath.

Lemma clampTick_monotone (t1 t2 : Z) : (t1 <= t2)%Z -> (clampTick t1 <= clampTick t2)%Z.
Proof. unfold clampTick. lia. Qed.

Lemma Math_round_monotone (x y : R) : x <= y -> (Math_round x <= Math_round y)%Z.
Proof. intros H. unfold Math_round. apply Zfloor_le. lra. Qed.

(** The rounded tick of spacing 200, for a tick within the bounds. *)
Lemma rounded_200_bounds (c : Z) :
  (MIN_TICK <= c <= MAX_TICK)%Z ->
  let r := ((2 * c + 200) / (2 * 200) * 200)%Z in
  (-887200 <= r <= 887200)%Z /\ (r mod 200 = 0)%Z /\ (Z.abs (r - c) <= 100)%Z
  /\ ((2 * (c + 200) + 200) / (2 * 200) * 200 = r + 200)%Z.
Proof.
  intros Hc r. unfold MIN_TICK, MAX_TICK in Hc.
  assert (Hnext : ((2 * (c + 200) + 200) / (2 * 200) = (2 * c + 200) / (2 * 200) + 1)%Z).
  { replace (2 * (c + 200) + 200)%Z with (2 * c + 200 + 1 * (2 * 200))%Z by lia.
    apply Z.div_add. lia. }
  rewrite Hnext. unfold r.
  pose proof (Z.div_mod (2 * c + 200) (2 * 200) ltac:(lia)) as Hdm.
  pose proof (Z.mod_pos_bound (2 * c + 200) (2 * 200) ltac:(lia)) as Hr.
  set (q := ((2 * c + 200) / (2 * 200))%Z) in *.
  repeat split; try lia.
  apply Z.mod_mul. lia.
Qed.

(** The range of an order at a positive price, with the default spacing. *)
Lemma limitOrderRange_shape (price : R) :
  (price <= 0 ->
   limitOrderRange price DEFAULT_TICK_SPACING
   = Throw "Price must be positive")
  /\ (0 < price ->
      exists centerTick lower upper : Z,
        priceToTick price = Ok centerTick
        /\ limitOrderRange price DEFAULT_TICK_SPACING
           = Ok (mkRange lower upper)
        /\ (lower mod 200 = 0)%Z
        /\ (Z.abs (lower - centerTick) <= 100)%Z
        /\ (lower < upper <= lower + 200)%Z
        /\ (MIN_TICK <= lower)%Z /\ (upper <= MAX_TICK)%Z).
Proof.
  split.
  - intros Hp. unfold limitOrderRange.
    rewrite priceToTick_nonpositive by exact Hp. reflexivity.
  - intros Hp.
    set (c := clampTick (Math_floor (Math_log price / Math_log 1.0001))).
    pose proof (clampTick_bounds (Math_floor (Math_log price / Math_log 1.0001)))
      as Hc. fold c in Hc.
    pose proof (rounded_200_bounds c Hc) as H. cbv zeta in H.
    destruct H as [Hr [Hmod [Habs Hnext]]].
    exists c, ((2 * c + 200) / (2 * 200) * 200)%Z,
      (clampTick ((2 * c + 200) / (2 * 200) * 200 + 200))%Z.
    split; [apply priceToTick_positive; exact Hp|].
    split.
    { unfold limitOrderRange. rewrite priceToTick_positive by exact Hp.
      fold c. simpl. unfold nearestUsableTick, DEFAULT_TICK_SPACING.
      rewrite !Math_round_div by lia. rewrite Hnext.
      rewrite (clampTick_id ((2 * c + 200) / (2 * 200) * 200)%Z)
        by (unfold MIN_TICK, MAX_TICK; lia).
      reflexivity. }
    unfold clampTick, MIN_TICK, MAX_TICK in *.
    repeat split; try assumption; lia.
Qed.

End UsableTickFacts.

(** X1: for a spacing that is not 0, the usable tick never leaves
    [MIN_TICK, MAX_TICK], and with a positive spacing it keeps the order of
    the ticks: a greater tick never gets a smaller usable tick. *)
Theorem nearestUsableTick_bounded_monotone :
  (forall t s : Z,
      s <> 0%Z ->
      (TickMath.MIN_TICK <= TickMath.nearestUsableTick t s <= TickMath.MAX_TICK)%Z)
  /\ (forall t1 t2 s : Z,
        (0 < s)%Z -> (t1 <= t2)%Z ->
        (TickMath.nearestUsableTick t1 s <= TickMath.nearestUsableTick t2 s)%Z).
Proof.
  split.
  - intros t s _. apply clampTick_bounds.
  - intros t1 t2 s Hs Ht. unfold TickMath.nearestUsableTick.
    apply clampTick_monotone. apply Z.mul_le_mono_nonneg_r; [lia|].
    apply Math_round_monotone.
    apply Rmult_le_compat_r.
    + left. apply Rinv_0_lt_compat. apply IZR_lt. exact Hs.
    + apply IZR_le. exact Ht.
Qed.

Lemma nearestUsableTick_bounded_monotone_witness :
  (TickMath.MIN_TICK <= TickMath.nearestUsableTick 887472 200 <= TickMath.MAX_TICK)%Z
  /\ (TickMath.nearestUsableTick 150 200 <= TickMath.nearestUsableTick 350 200)%Z.
Proof.
  split.
  - apply (proj1 nearestUsableTick_bounded_monotone 887472 200)%Z. lia.
  - apply (proj2 nearestUsableTick_bounded_monotone 150 350 200)%Z; lia.
Defined.

(** X2: for every price > 0, [limitOrderRange] with the default spacing 200
    returns a range whose lower tick is a multiple of 200 at most 100 ticks
    away from the tick of the price, and whose upper tick is strictly above
    the lower one and at most 200 ticks above it; for a price <= 0 it
    throws. *)
Theorem limitOrderRange_default_spacing (price : R) :
  (price <= 0 ->
   TickMath.limitOrderRange price TickMath.DEFAULT_TICK_SPACING
   = Throw "Price must be positive")
  /\ (0 < price ->
      exists centerTick lower upper : Z,
        TickMath.priceToTick price = Ok centerTick
        /\ TickMath.limitOrderRange price TickMath.DEFAULT_TICK_SPACING
           = Ok (TickMath.mkRange lower upper)
        /\ (lower mod 200 = 0)%Z
        /\ (Z.abs (lower - centerTick) <= 100)%Z
        /\ (lower < upper <= lower + 200)%Z
        /\ (TickMath.MIN_TICK <= lower)%Z /\ (upper <= TickMath.MAX_TICK)%Z).
Proof. apply limitOrderRange_shape. Qed.

Lemma limitOrderRange_default_spacing_witness :
  TickMath.limitOrderRange 0 TickMath.DEFAULT_TICK_SPACING
  = Throw "Price must be positive"
  /\ exists centerTick lower upper : Z,
       TickMath.priceToTick 1 = Ok centerTick
       /\ TickMath.limitOrderRange 1 TickMath.DEFAULT_TICK_SPACING
          = Ok (TickMath.mkRange lower upper)
       /\ (lower mod 200 = 0)%Z
       /\ (Z.abs (lower - centerTick) <= 100)%Z
       /\ (lower < upper <= lower + 200)%Z
       /\ (TickMath.MIN_TICK <= lower)%Z /\ (upper <= TickMath.MAX_TICK)%Z.
Proof.
  split.
  - apply (proj1 (limitOrderRange_default_spacing 0)). lra.
  - apply (proj2 (limitOrderRange_default_spacing 1)). lra.
Defined.

(** ** FillMonitor: what one run reports, and a second run at the same price *)

Section FillReportFacts.
Import PositionManager FillMonitor.

Ltac compare_prices :=
  repeat match goal with
    | |- context [JS.leb ?x ?y] => destruct (leb_spec x y)
    | |- context [JS.ltb ?x ?y] => destruct (ltb_spec x y)
    end.

(** A position is pushed on [fills] once when its status changes, and not at
    all when it does not. *)
Lemma checkPosition_pushed (currentPrice : R) (now : Z) (p : Position) :
  snd (checkPosition currentPrice now p)
  = if Status_eqb (status (fst (checkPosition currentPrice now p))) (status p)
    then 0%nat else 1%nat.
Proof.
  unfold checkPosition, JS.geb, JS.gtb.
  destruct p as [i [|] tp sz lo up [| | |] cr fa tx]; simpl;
    compare_prices; simpl; try reflexivity; lra.
Qed.

(** A second pass of the tests at the same price changes nothing. *)
Lemma checkPosition_settled (currentPrice : R) (now now' : Z) (p : Position) :
  checkPosition currentPrice now' (fst (checkPosition currentPrice now p))
  = (fst (checkPosition currentPrice now p), 0%nat).
Proof.
  unfold checkPosition, JS.geb, JS.gtb.
  destruct p as [i [|] tp sz lo up [| | |] cr fa tx]; simpl;
    repeat (compare_prices; simpl in * ); try reflexivity; lra.
Qed.

Lemma checkFillsFrom_settled (positions : list Position) (currentPrice : R)
  (now now' : Z) :
  forall i j : nat,
    checkFillsFrom j (fst (checkFillsFrom i positions currentPrice now))
      currentPrice now'
    = (fst (checkFillsFrom i positions currentPrice now), []).
Proof.
  induction positions as [| p rest IH]; intros i j; [reflexivity|].
  simpl. pose proof (checkPosition_settled currentPrice now now' p) as Hp.
  destruct (checkPosition currentPrice now p) as [p' pushed].
  specialize (IH (S i) (S j)).
  destruct (checkFillsFrom (S i) rest currentPrice now) as [rest' fills].
  simpl in *. rewrite Hp, IH. reflexivity.
Qed.

Lemma checkFillsFrom_length (positions : list Position) (currentPrice : R)
  (now : Z) :
  forall i : nat,
    List.length (fst (checkFillsFrom i positions currentPrice now))
    = List.length positions.
Proof.
  induction positions as [| p rest IH]; intros i; [reflexivity|].
  simpl. destruct (checkPosition currentPrice now p) as [p' pushed].
  specialize (IH (S i)).
  destruct (checkFillsFrom (S i) rest currentPrice now) as [rest' fills].
  simpl in *. rewrite IH. reflexivity.
Qed.

(** The references of [fills], counted from the index [i] of the first
    position: those of the positions whose status changed. *)
Lemma checkFillsFrom_fills (positions : list Position) (currentPrice : R)
  (now : Z) :
  forall i k : nat,
    In k (snd (checkFillsFrom i positions currentPrice now))
    <-> exists (j : nat) (q : Position),
          k = (i + j)%nat /\ nth_error positions j = Some q
          /\ status (fst (checkPosition currentPrice now q)) <> status q.
Proof.
  induction positions as [| p rest IH]; intros i k.
  - simpl. split; [contradiction|]. intros [j [q [_ [H _]]]].
    destruct j; discriminate.
  - simpl. pose proof (checkPosition_pushed currentPrice now p) as Hpush.
    destruct (checkPosition currentPrice now p) as [p' pushed] eqn:Ep.
    specialize (IH (S i) k).
    destruct (checkFillsFrom (S i) rest currentPrice now) as [rest' fills].
    simpl in *. rewrite in_app_iff, IH. split.
    + intros [Hin | [j [q [Hk [Hq Hch]]]]].
      * apply repeat_spec in Hin as Hk. subst k.
        exists 0%nat, p. rewrite Ep. simpl.
        split; [lia | split; [reflexivity |]].
        destruct (Status_eqb_spec (status p') (status p)) as [_ | Hne];
          [subst pushed; contradiction | exact Hne].
      * exists (S j), q. repeat split; [lia | exact Hq | exact Hch].
    + intros [[| j] [q [Hk [Hq Hch]]]].
      * left. simpl in Hq. injection Hq as <-. rewrite Ep in Hch. simpl in Hch.
        destruct (Status_eqb_spec (status p') (status p)) as [He | _];
          [contradiction |].
        subst pushed k. rewrite Nat.add_0_r. left. reflexivity.
      * right. exists j, q. repeat split; [lia | exact Hq | exact Hch].
Qed.

Lemma checkFillsFrom_NoDup (positions : list Position) (currentPrice : R)
  (now : Z) :
  forall i : nat, NoDup (snd (checkFillsFrom i positions currentPrice now)).
Proof.
  induction positions as [| p rest IH]; intros i; [constructor|].
  simpl. pose proof (checkPosition_pushed currentPrice now p) as Hpush.
  destruct (checkPosition currentPrice now p) as [p' pushed] eqn:Ep.
  pose proof (checkFillsFrom_fills rest currentPrice now (S i) i) as Hin.
  specialize (IH (S i)).
  destruct (checkFillsFrom (S i) rest currentPrice now) as [rest' fills].
  simpl in *.
  destruct (Status_eqb (status p') (status p)); subst pushed; simpl.
  - exact IH.
  - constructor; [| exact IH].
    intros H. apply Hin in H. destruct H as [j [q [Hk _]]]. lia.
Qed.

End FillReportFacts.

(** X3: after one run of [checkFills], a second run at the same price
    changes no position and reports no fill: an order advances by at most one
    state per price. *)
Theorem checkFills_same_price_settles
  (positions : list PositionManager.Position) (currentPrice : R) (now now' : Z) :
  FillMonitor.checkFills
    (fst (FillMonitor.checkFills positions currentPrice now)) currentPrice now'
  = (fst (FillMonitor.checkFills positions currentPrice now), []).
Proof. unfold FillMonitor.checkFills. apply checkFillsFrom_settled. Qed.

(** X4: [checkFills] keeps the number of positions, and the array [fills] it
    returns refers exactly to the positions whose status the run changed,
    each of them once. *)
Theorem checkFills_reports_changes
  (positions : list PositionManager.Position) (currentPrice : R) (now : Z) :
  let checked := fst (FillMonitor.checkFills positions currentPrice now) in
  let fills := snd (FillMonitor.checkFills positions currentPrice now) in
  List.length checked = List.length positions
  /\ NoDup fills
  /\ forall k : nat,
       In k fills
       <-> exists q q' : PositionManager.Position,
             nth_error positions k = Some q /\ nth_error checked k = Some q'
             /\ PositionManager.status q' <> PositionManager.status q.
Proof.
  intros checked fills. unfold checked, fills, FillMonitor.checkFills.
  split; [apply checkFillsFrom_length |].
  split; [apply checkFillsFrom_NoDup |].
  intros k. rewrite checkFillsFrom_fills. split.
  - intros [j [q [Hk [Hq Hch]]]]. simpl in Hk. subst j.
    exists q, (fst (FillMonitor.checkPosition currentPrice now q)).
    rewrite checkFillsFrom_nth, Hq. simpl. auto.
  - intros [q [q' [Hq [Hq' Hch]]]].
    rewrite checkFillsFrom_nth, Hq in Hq'. simpl in Hq'. injection Hq' as <-.
    exists k, q. auto.
Qed.

(** ** InventoryTracker: initial split, fills and the range of the imbalance *)

(** X5: [init(btcAmount, currentPrice)] on a new tracker (price and amount
    not zero) gives an inventory worth exactly [btcAmount] at that price,
    with no imbalance, so that [needsRebalance] is false at that price for
    every threshold >= 0. *)
Theorem init_is_balanced (btcAmount currentPrice threshold : R) :
  btcAmount <> 0 -> currentPrice <> 0 -> 0 <= threshold ->
  let inv := InventoryTracker.init InventoryTracker.new btcAmount currentPrice in
  InventoryTracker.getTotalValueBTC inv currentPrice = btcAmount
  /\ InventoryTracker.getImbalance inv currentPrice = 0
  /\ InventoryTracker.needsRebalance inv currentPrice threshold = false.
Proof.
  intros Hb Hp Ht inv.
  assert (Hval : InventoryTracker.btc inv
                 + InventoryTracker.rad inv / 100 * currentPrice = btcAmount).
  { unfold inv. simpl. field. exact Hp. }
  assert (Himb : InventoryTracker.getImbalance inv currentPrice = 0).
  { rewrite getImbalance_nonzero by (rewrite Hval; exact Hb).
    rewrite Hval. unfold inv. simpl.
    assert (E : btcAmount / 2 / btcAmount = / 2) by (field; exact Hb).
    rewrite E. lra. }
  split; [exact Hval | split; [exact Himb |]].
  unfold InventoryTracker.needsRebalance, JS.gtb, Math_abs.
  rewrite Himb, Rabs_R0. destruct (ltb_spec threshold 0); [lra | reflexivity].
Qed.

Lemma init_is_balanced_witness :
  let inv := InventoryTracker.init InventoryTracker.new 2 1 in
  InventoryTracker.getTotalValueBTC inv 1 = 2
  /\ InventoryTracker.getImbalance inv 1 = 0
  /\ InventoryTracker.needsRebalance inv 1 InventoryTracker.DEFAULT_THRESHOLD
     = false.
Proof.
  apply (init_is_balanced 2 1 InventoryTracker.DEFAULT_THRESHOLD);
    unfold InventoryTracker.DEFAULT_THRESHOLD; lra.
Defined.

(** X6: a fill recorded at the price [p] (not zero) leaves the value of the
    inventory at [p] unchanged, whatever the order; and recording a bid and
    then an ask of the same size at the same price restores both balances,
    two trade records being added. *)
Theorem recordFill_neutral_and_reversible
  (inv : InventoryTracker.t) (buyOrder sellOrder : PositionManager.Position)
  (p : R) (now1 now2 : Z) :
  p <> 0 ->
  PositionManager.side buyOrder = bid ->
  PositionManager.side sellOrder = ask ->
  PositionManager.sizeBTC sellOrder = PositionManager.sizeBTC buyOrder ->
  let bought := InventoryTracker.recordFill inv buyOrder p now1 in
  let sold := InventoryTracker.recordFill bought sellOrder p now2 in
  InventoryTracker.getTotalValueBTC bought p = InventoryTracker.getTotalValueBTC inv p
  /\ InventoryTracker.btc bought = InventoryTracker.btc inv - PositionManager.sizeBTC buyOrder
  /\ InventoryTracker.btc sold = InventoryTracker.btc inv
  /\ InventoryTracker.rad sold = InventoryTracker.rad inv
  /\ List.length (InventoryTracker.trades sold)
     = S (S (List.length (InventoryTracker.trades inv))).
Proof.
  intros Hp Hb Hs Hsize bought sold.
  split; [apply recordFill_value_neutral; exact Hp |].
  unfold sold, bought, InventoryTracker.recordFill. rewrite Hb, Hs, Hsize. simpl.
  rewrite !length_app. simpl.
  repeat split; try lra; lia.
Qed.

Lemma recordFill_neutral_and_reversible_witness :
  let buyOrder := Samples.bidOrder filled in
  let sellOrder := PositionManager.mkPosition (0%Z, ask) ask 1 1 0 200 filled 0 None
                     (PositionManager.mkTxParams 0 100 200 0) in
  let bought := InventoryTracker.recordFill Samples.balanced buyOrder 2 0 in
  let sold := InventoryTracker.recordFill bought sellOrder 2 1 in
  InventoryTracker.getTotalValueBTC bought 2
  = InventoryTracker.getTotalValueBTC Samples.balanced 2
  /\ InventoryTracker.btc bought
     = InventoryTracker.btc Samples.balanced - PositionManager.sizeBTC buyOrder
  /\ InventoryTracker.btc sold = InventoryTracker.btc Samples.balanced
  /\ InventoryTracker.rad sold = InventoryTracker.rad Samples.balanced
  /\ List.length (InventoryTracker.trades sold)
     = S (S (List.length (InventoryTracker.trades Samples.balanced))).
Proof.
  apply (recordFill_neutral_and_reversible Samples.balanced
           (Samples.bidOrder filled) _ 2 0 1); try reflexivity. lra.
Defined.

(** X7: with non-negative balances, a positive price and a target ratio in
    [0, 1], the imbalance lies between [- targetRatio] and
    [1 - targetRatio]; an inventory worth nothing has imbalance 0. *)
Theorem getImbalance_range (inv : InventoryTracker.t) (currentPrice : R) :
  0 <= InventoryTracker.btc inv -> 0 <= InventoryTracker.rad inv ->
  0 < currentPrice ->
  0 <= InventoryTracker.targetRatio inv <= 1 ->
  - InventoryTracker.targetRatio inv
  <= InventoryTracker.getImbalance inv currentPrice
  <= 1 - InventoryTracker.targetRatio inv
  /\ (InventoryTracker.getTotalValueBTC inv currentPrice = 0 ->
      InventoryTracker.getImbalance inv currentPrice = 0).
Proof.
  intros Hb Hr Hp Ht. unfold InventoryTracker.getImbalance,
    InventoryTracker.getTotalValueBTC.
  set (total := InventoryTracker.btc inv
                + InventoryTracker.rad inv / 100 * currentPrice).
  assert (Hrad : 0 <= InventoryTracker.rad inv / 100 * currentPrice).
  { apply Rmult_le_pos; lra. }
  destruct (eqb_spec total 0) as [E | Hne].
  - split; [lra | reflexivity].
  - split; [| intros H; contradiction].
    assert (Htot : 0 < total) by (unfold total in *; lra).
    assert (Hratio : 0 <= InventoryTracker.btc inv / total <= 1).
    { split.
      - apply Rmult_le_pos; [exact Hb | left; apply Rinv_0_lt_compat; exact Htot].
      - apply Rmult_le_reg_r with total; [exact Htot|].
        unfold Rdiv. rewrite Rmult_assoc, Rinv_l by lra. unfold total. lra. }
    lra.
Qed.

Lemma getImbalance_range_witness :
  - InventoryTracker.targetRatio Samples.btcHeavy
  <= InventoryTracker.getImbalance Samples.btcHeavy 1
  <= 1 - InventoryTracker.targetRatio Samples.btcHeavy
  /\ (InventoryTracker.getTotalValueBTC Samples.btcHeavy 1 = 0 ->
      InventoryTracker.getImbalance Samples.btcHeavy 1 = 0).
Proof.
  apply (getImbalance_range Samples.btcHeavy 1); simpl; lra.
Defined.

(** ** SpreadCalculator: what the skew does to the quotes, and the volume *)

(** X8: the skew only moves the quotes, it does not change their distance:
    for a price not zero, the quotes built from the spread of
    [calculateSpread] are always spreadBPS apart (ask - bid is
    price * spreadBPS / 10000, and the reported [spreadBPS] is that of the
    spread).  With too much BTC (imbalance > 0.1) the bid is 60% and the ask
    40% of that distance away from the price, with too much RAD
    (imbalance < -0.1) the other way round, and half each otherwise. *)
Theorem getQuotes_skew_splits_spread
  (sc : SpreadCalculator.t) (inv : InventoryTracker.t)
  (currentPrice recentVolatility poolVolume24h : R) :
  currentPrice <> 0 ->
  let spread :=
    SpreadCalculator.calculateSpread sc inv currentPrice recentVolatility
      poolVolume24h in
  let quotes := SpreadCalculator.getQuotes sc currentPrice spread inv in
  let distance := currentPrice * SpreadCalculator.spreadBPS spread / 10000 in
  let imbalance := InventoryTracker.getImbalance inv currentPrice in
  SpreadCalculator.quoteSpread quotes = distance
  /\ SpreadCalculator.quoteSpreadBPS quotes = SpreadCalculator.spreadBPS spread
  /\ SpreadCalculator.quoteMid quotes = currentPrice
  /\ (0.1 < imbalance ->
      currentPrice - SpreadCalculator.quoteBid quotes = 0.6 * distance
      /\ SpreadCalculator.quoteAsk quotes - currentPrice = 0.4 * distance)
  /\ (imbalance < -0.1 ->
      currentPrice - SpreadCalculator.quoteBid quotes = 0.4 * distance
      /\ SpreadCalculator.quoteAsk quotes - currentPrice = 0.6 * distance)
  /\ (-0.1 <= imbalance <= 0.1 ->
      currentPrice - SpreadCalculator.quoteBid quotes = 0.5 * distance
      /\ SpreadCalculator.quoteAsk quotes - currentPrice = 0.5 * distance).
Proof.
  intros Hp spread quotes distance imbalance.
  assert (Hb : SpreadCalculator.bidSpread spread
               = SpreadCalculator.spreadBPS spread / 2) by reflexivity.
  assert (Ha : SpreadCalculator.askSpread spread
               = SpreadCalculator.spreadBPS spread / 2) by reflexivity.
  unfold quotes, distance.
  revert Hb Ha. generalize spread as s. intros s Hb Ha.
  assert (Hover : forall x : R, currentPrice * x / 10000 / currentPrice * 10000 = x)
    by (intros x; field; exact Hp).
  unfold SpreadCalculator.getQuotes, JS.gtb. fold imbalance.
  destruct (ltb_spec 0.1 imbalance);
    [| destruct (ltb_spec imbalance (-0.1))];
    simpl; rewrite Hb, Ha;
    match goal with
    | |- ?d = ?e /\ _ => assert (Hd : d = e) by nra; rewrite Hd
    end;
    (split; [reflexivity | split; [apply Hover | split; [reflexivity |]]]);
    repeat split; intros; try lra; nra.
Qed.

Lemma getQuotes_skew_splits_spread_witness :
  let spread :=
    SpreadCalculator.calculateSpread SpreadCalculator.new Samples.btcHeavy 1 0.03
      425.69 in
  let quotes :=
    SpreadCalculator.getQuotes SpreadCalculator.new 1 spread Samples.btcHeavy in
  let distance := 1 * SpreadCalculator.spreadBPS spread / 10000 in
  1 - SpreadCalculator.quoteBid quotes = 0.6 * distance
  /\ SpreadCalculator.quoteAsk quotes - 1 = 0.4 * distance.
Proof.
  pose proof (getQuotes_skew_splits_spread SpreadCalculator.new Samples.btcHeavy
                1 0.03 425.69 ltac:(lra)) as H.
  cbv zeta in H. destruct H as [_ [_ [_ [H _]]]].
  apply H. rewrite getImbalance_btcHeavy. lra.
Defined.

(** X9: for a calculator with [baseSpreadBPS >= 0], the [spreadBPS] of
    [calculateSpread] does not grow when [poolVolume24h] grows, the other
    inputs being the same, and it is never below the base spread clamped
    into [minSpreadBPS, maxSpreadBPS] (no factor narrows the spread). *)
Theorem calculateSpread_volume_antitone (sc : SpreadCalculator.t) :
  0 <= SpreadCalculator.baseSpreadBPS sc ->
  (forall (inv : InventoryTracker.t) (p vol volume1 volume2 : R),
      volume1 <= volume2 ->
      SpreadCalculator.spreadBPS
        (SpreadCalculator.calculateSpread sc inv p vol volume2)
      <= SpreadCalculator.spreadBPS
           (SpreadCalculator.calculateSpread sc inv p vol volume1))
  /\ (forall (inv : InventoryTracker.t) (p vol volume : R),
        Math_max (SpreadCalculator.minSpreadBPS sc)
          (Math_min (SpreadCalculator.maxSpreadBPS sc)
             (SpreadCalculator.baseSpreadBPS sc))
        <= SpreadCalculator.spreadBPS
             (SpreadCalculator.calculateSpread sc inv p vol volume)).
Proof.
  intros Hbase. split.
  - intros inv p vol volume1 volume2 Hv.
    rewrite !spreadBPS_calculateSpread. cbv zeta. apply clamp_monotone.
    set (i := InventoryTracker.getImbalance inv p).
    destruct (i >? 0.1), (i <? -0.1), (vol >? 0.05),
      (ltb_spec volume1 100), (ltb_spec volume2 100); lra.
  - intros inv p vol volume.
    rewrite spreadBPS_calculateSpread. cbv zeta. apply clamp_monotone.
    set (i := InventoryTracker.getImbalance inv p).
    destruct (i >? 0.1), (i <? -0.1), (vol >? 0.05), (volume <? 100); lra.
Qed.

Lemma calculateSpread_volume_antitone_witness :
  SpreadCalculator.spreadBPS
    (SpreadCalculator.calculateSpread SpreadCalculator.new Samples.balanced 1 0.03
       425.69)
  <= SpreadCalculator.spreadBPS
       (SpreadCalculator.calculateSpread SpreadCalculator.new Samples.balanced 1
          0.03 50).
Proof.
  assert (Hbase : 0 <= SpreadCalculator.baseSpreadBPS SpreadCalculator.new)
    by (simpl; lra).
  apply (proj1 (calculateSpread_volume_antitone SpreadCalculator.new Hbase)).
  lra.
Defined.

(** ** MarketMaker: the orders of a turn, a skipped turn, the loop *)

Section TurnFacts.
Import MarketMaker.


Lemma createLimitOrder_throws (pm : PositionManager.t) (s : Side)
  (price size : R) (now : Z) :
  price <= 0 ->
  PositionManager.createLimitOrder pm s price size now
  = Throw "Price must be positive".
Proof.
  intros Hp. unfold PositionManager.createLimitOrder.
  rewrite (proj1 (limitOrderRange_shape price) Hp). reflexivity.
Qed.

(** At a price that is not positive, the bid quote is not positive either. *)
Lemma quoteBid_nonpositive (sc : SpreadCalculator.t) (inv : InventoryTracker.t)
  (p vol volume : R) :
  p <= 0 ->
  0 < SpreadCalculator.minSpreadBPS sc <= SpreadCalculator.maxSpreadBPS sc ->
  SpreadCalculator.maxSpreadBPS sc <= 10000 ->
  SpreadCalculator.quoteBid
    (SpreadCalculator.getQuotes sc p
       (SpreadCalculator.calculateSpread sc inv p vol volume) inv) <= 0.
Proof.
  intros Hp [Hmin Hle] Hmax.
  assert (Hs : 0 < SpreadCalculator.spreadBPS
                     (SpreadCalculator.calculateSpread sc inv p vol volume)
               <= 10000).
  { rewrite spreadBPS_calculateSpread.
    match goal with
    | |- _ < Math_max _ (Math_min _ ?x) <= _ =>
        pose proof (clamp_bounds _ _ x Hle) as Hc
    end.
    lra. }
  assert (Hb : SpreadCalculator.bidSpread
                 (SpreadCalculator.calculateSpread sc inv p vol volume)
               = SpreadCalculator.spreadBPS
                   (SpreadCalculator.calculateSpread sc inv p vol volume) / 2)
    by reflexivity.
  revert Hs Hb.
  generalize (SpreadCalculator.calculateSpread sc inv p vol volume) as spread.
  intros spread Hs Hb.
  unfold SpreadCalculator.getQuotes, JS.gtb.
  destruct (ltb_spec 0.1 (InventoryTracker.getImbalance inv p));
    [| destruct (ltb_spec (InventoryTracker.getImbalance inv p) (-0.1))];
    simpl; rewrite Hb;
    match goal with
    | |- p * ?k <= 0 => assert (Hk : 0 < k) by lra; nra
    end.
Qed.


(** Recording fills never touches [unrealized]. *)
Lemma recordFills_keeps_unrealized (currentPrice : R) (now : Z)
  (positions : list PositionManager.Position) (fills : list nat) :
  forall acc : InventoryTracker.t * PnL,
    unrealized (snd (recordFills currentPrice now positions fills acc))
    = unrealized (snd acc).
Proof.
  unfold recordFills.
  induction fills as [| idx fills IH]; intros acc; [reflexivity|].
  simpl. rewrite IH. unfold recordOneFill. destruct acc as [inv pl].
  destruct (nth_error positions idx) as [fill |]; [| reflexivity].
  destruct (Status_eqb (PositionManager.status fill) filled); reflexivity.
Qed.

(** A turn on open orders: the accounts but for [unrealized] stay. *)
Lemma cycle_open_orders_accounts (pool : Pool) (now : Z) (mm : t) :
  Forall (fun p => PositionManager.status p = open)
    (PositionManager.activePositions (positionManager mm)) ->
  0 < calculatePrice pool ->
  0 < SpreadCalculator.minSpreadBPS (spreadCalc mm)
    <= SpreadCalculator.maxSpreadBPS (spreadCalc mm) ->
  SpreadCalculator.maxSpreadBPS (spreadCalc mm) <= 10000 ->
  inventory (cycle pool now mm) = inventory mm
  /\ realized (pnl (cycle pool now mm)) = realized (pnl mm)
  /\ fees (pnl (cycle pool now mm)) = fees (pnl mm)
  /\ pnlTrades (pnl (cycle pool now mm)) = pnlTrades (pnl mm)
  /\ spreadCalc (cycle pool now mm) = spreadCalc mm
  /\ Forall (fun p => PositionManager.status p = open)
       (PositionManager.activePositions (positionManager (cycle pool now mm))).
Proof.
  intros Hopen Hp Hsc Hmax.
  pose proof (cycle_accounts pool now mm) as H. cbv zeta in H.
  specialize (H Hp Hsc Hmax). destruct H as [Hinv [_ [Hpnl [Hcalc Hopen']]]].
  rewrite Hinv, Hpnl.
  rewrite recordFills_none_filled
    by (apply checkFills_open_stay_unfilled; exact Hopen).
  simpl. repeat split; assumption.
Qed.

Lemma runLoop_open_orders_accounts (inputs : list (Pool * Z)) :
  forall mm : t,
    Forall (fun input => 0 < calculatePrice (fst input)) inputs ->
    Forall (fun p => PositionManager.status p = open)
      (PositionManager.activePositions (positionManager mm)) ->
    0 < SpreadCalculator.minSpreadBPS (spreadCalc mm)
      <= SpreadCalculator.maxSpreadBPS (spreadCalc mm) ->
    SpreadCalculator.maxSpreadBPS (spreadCalc mm) <= 10000 ->
    inventory (runLoop inputs mm) = inventory mm
    /\ realized (pnl (runLoop inputs mm)) = realized (pnl mm)
    /\ fees (pnl (runLoop inputs mm)) = fees (pnl mm)
    /\ pnlTrades (pnl (runLoop inputs mm)) = pnlTrades (pnl mm).
Proof.
  induction inputs as [| [pool now] rest IH]; intros mm Hprices Hopen Hsc Hmax.
  - repeat split; reflexivity.
  - simpl. destruct (running mm); [| repeat split; reflexivity].
    inversion Hprices as [| ? ? Hp Hrest]; subst. simpl in Hp.
    destruct (cycle_open_orders_accounts pool now mm Hopen Hp Hsc Hmax)
      as [Hinv [Hreal [Hfees [Htrades [Hcalc Hopen']]]]].
    destruct (IH (cycle pool now mm) Hrest Hopen') as [IHi [IHr [IHf IHt]]];
      rewrite ?Hcalc; try assumption.
    rewrite IHi, IHr, IHf, IHt, Hinv, Hreal, Hfees, Htrades.
    repeat split; reflexivity.
Qed.

End TurnFacts.



(** X11: a turn of [run] on a pool whose RAD reserve is not 0 and whose
    price is not positive (a BTC reserve of 0, say) is skipped after the
    fills: the bid quote is not positive, [createLimitOrder] throws, the
    loop catches the error with the old orders already cancelled and none
    placed, and [unrealized], [running] and the capital stay as they
    were. *)
Theorem cycle_nonpositive_price_skipped (pool : MarketMaker.Pool) (now : Z)
  (mm : MarketMaker.t) :
  MarketMaker.token1Reserve pool <> 0 ->
  MarketMaker.calculatePrice pool <= 0 ->
  0 < SpreadCalculator.minSpreadBPS (MarketMaker.spreadCalc mm)
    <= SpreadCalculator.maxSpreadBPS (MarketMaker.spreadCalc mm) ->
  SpreadCalculator.maxSpreadBPS (MarketMaker.spreadCalc mm) <= 10000 ->
  let mm' := MarketMaker.cycle pool now mm in
  PositionManager.activePositions (MarketMaker.positionManager mm') = []
  /\ MarketMaker.unrealized (MarketMaker.pnl mm')
     = MarketMaker.unrealized (MarketMaker.pnl mm)
  /\ MarketMaker.running mm' = MarketMaker.running mm
  /\ MarketMaker.initialCapital mm' = MarketMaker.initialCapital mm.
Proof.
  intros _ Hp Hsc Hmax mm'. unfold mm', MarketMaker.cycle.
  unfold PositionManager.getActivePositions.
  pose proof (recordFills_keeps_unrealized (MarketMaker.calculatePrice pool) now
                (fst (FillMonitor.checkFills
                        (PositionManager.activePositions
                           (MarketMaker.positionManager mm))
                        (MarketMaker.calculatePrice pool) now))
                (snd (FillMonitor.checkFills
                        (PositionManager.activePositions
                           (MarketMaker.positionManager mm))
                        (MarketMaker.calculatePrice pool) now))
                (MarketMaker.inventory mm, MarketMaker.pnl mm)) as Hun.
  destruct (FillMonitor.checkFills _ _ _) as [positions fills].
  simpl fst in Hun. simpl snd in Hun.
  destruct (MarketMaker.recordFills _ _ _ _ _) as [inv acc]. simpl in Hun.
  cbn [MarketMaker.positionManager MarketMaker.inventory MarketMaker.spreadCalc
       MarketMaker.config MarketMaker.initialCapital MarketMaker.running
       MarketMaker.pnl].
  rewrite createLimitOrder_throws
    by (apply quoteBid_nonpositive; assumption).
  simpl. repeat split; try reflexivity. exact Hun.
Qed.

Lemma cycle_nonpositive_price_skipped_witness :
  let started := MarketMaker.init (MarketMaker.new 2) 1 in
  let mm' :=
    MarketMaker.cycle (MarketMaker.mkPool 425.69 143320.55 0 100) 0 started in
  PositionManager.activePositions (MarketMaker.positionManager mm') = []
  /\ MarketMaker.unrealized (MarketMaker.pnl mm')
     = MarketMaker.unrealized (MarketMaker.pnl started)
  /\ MarketMaker.running mm' = MarketMaker.running started
  /\ MarketMaker.initialCapital mm' = MarketMaker.initialCapital started.
Proof.
  apply (cycle_nonpositive_price_skipped (MarketMaker.mkPool 425.69 143320.55 0 100)
           0 (MarketMaker.init (MarketMaker.new 2) 1)).
  - simpl. lra.
  - unfold MarketMaker.calculatePrice. simpl. lra.
  - simpl. lra.
  - simpl. lra.
Defined.

(** X12: [run], started on open orders or on none (as after the constructor
    and [init]) and fed positive prices, never records a fill: whatever the
    prices do, the inventory, [realized], [fees] and the count of trades come
    out as they went in.  The orders of a turn are new and open, one run of
    [checkFills] takes an order at most from open to filling, and the next
    turn cancels it. *)
Theorem run_never_records_a_fill (inputs : list (MarketMaker.Pool * Z))
  (mm : MarketMaker.t) :
  Forall (fun input => 0 < MarketMaker.calculatePrice (fst input)) inputs ->
  Forall (fun p => PositionManager.status p = open)
    (PositionManager.activePositions (MarketMaker.positionManager mm)) ->
  0 < SpreadCalculator.minSpreadBPS (MarketMaker.spreadCalc mm)
    <= SpreadCalculator.maxSpreadBPS (MarketMaker.spreadCalc mm) ->
  SpreadCalculator.maxSpreadBPS (MarketMaker.spreadCalc mm) <= 10000 ->
  let mm' := MarketMaker.run inputs mm in
  MarketMaker.inventory mm' = MarketMaker.inventory mm
  /\ MarketMaker.realized (MarketMaker.pnl mm')
     = MarketMaker.realized (MarketMaker.pnl mm)
  /\ MarketMaker.fees (MarketMaker.pnl mm') = MarketMaker.fees (MarketMaker.pnl mm)
  /\ MarketMaker.pnlTrades (MarketMaker.pnl mm')
     = MarketMaker.pnlTrades (MarketMaker.pnl mm).
Proof.
  intros Hprices Hopen Hsc Hmax mm'. unfold mm', MarketMaker.run.
  apply (runLoop_open_orders_accounts inputs
           (MarketMaker.mk (MarketMaker.positionManager mm)
              (MarketMaker.inventory mm) (MarketMaker.spreadCalc mm)
              (MarketMaker.config mm) (MarketMaker.initialCapital mm) true
              (MarketMaker.pnl mm))); assumption.
Qed.

Lemma run_never_records_a_fill_witness :
  let started := MarketMaker.init (MarketMaker.new 2) 1 in
  let mm' := MarketMaker.run [(Samples.poolAtTwo, 0%Z); (MarketMaker.mockPool, 1%Z)]
               started in
  MarketMaker.inventory mm' = MarketMaker.inventory started
  /\ MarketMaker.realized (MarketMaker.pnl mm')
     = MarketMaker.realized (MarketMaker.pnl started)
  /\ MarketMaker.fees (MarketMaker.pnl mm') = MarketMaker.fees (MarketMaker.pnl started)
  /\ MarketMaker.pnlTrades (MarketMaker.pnl mm')
     = MarketMaker.pnlTrades (MarketMaker.pnl started).
Proof.
  apply (run_never_records_a_fill
           [(Samples.poolAtTwo, 0%Z); (MarketMaker.mockPool, 1%Z)]
           (MarketMaker.init (MarketMaker.new 2) 1)).
  - repeat constructor; unfold MarketMaker.calculatePrice; simpl.
    + lra.
    + apply Rdiv_lt_0_compat; lra.
  - constructor.
  - simpl. lra.
  - simpl. lra.
Defined.

(** X13: [MarketMaker.rebalance] logs no swap while the absolute imbalance is
    at most [maxInventorySkew]; beyond it, it logs a swap of
    totalValue * |imbalance| / 2, and recording that swap at the same price
    (price and value not zero) leaves half of the imbalance: the swap goes
    half of the way to the target. *)
Theorem rebalance_swap_halves_imbalance (mm : MarketMaker.t) (currentPrice : R)
  (order : PositionManager.Position) (now : Z) :
  let inv := MarketMaker.inventory mm in
  let imbalance := InventoryTracker.getImbalance inv currentPrice in
  let totalValue := InventoryTracker.getTotalValueBTC inv currentPrice in
  let limit := MarketMaker.maxInventorySkew (MarketMaker.riskLimits (MarketMaker.config mm)) in
  let swapAmount := totalValue * Rabs imbalance / 2 in
  currentPrice <> 0 -> totalValue <> 0 -> 0 <= limit ->
  PositionManager.sizeBTC order = swapAmount ->
  (Rabs imbalance <= limit -> MarketMaker.rebalance mm currentPrice = None)
  /\ (limit < imbalance -> PositionManager.side order = bid ->
      MarketMaker.rebalance mm currentPrice
      = Some (MarketMaker.BTC_to_RAD swapAmount)
      /\ InventoryTracker.getImbalance
           (InventoryTracker.recordFill inv order currentPrice now) currentPrice
         = imbalance / 2)
  /\ (imbalance < - limit -> PositionManager.side order = ask ->
      MarketMaker.rebalance mm currentPrice
      = Some (MarketMaker.RAD_to_BTC (swapAmount / currentPrice * 100))
      /\ InventoryTracker.getImbalance
           (InventoryTracker.recordFill inv order currentPrice now) currentPrice
         = imbalance / 2).
Proof.
  intros inv imbalance totalValue limit swapAmount Hp Hv Hl Hsize.
  assert (Hval : InventoryTracker.btc inv
                 + InventoryTracker.rad inv / 100 * currentPrice = totalValue)
    by reflexivity.
  assert (Himb : imbalance
                 = InventoryTracker.btc inv / totalValue
                   - InventoryTracker.targetRatio inv).
  { unfold imbalance. rewrite getImbalance_nonzero by (rewrite Hval; exact Hv).
    rewrite Hval. reflexivity. }
  assert (Hafter :
    InventoryTracker.getImbalance
      (InventoryTracker.recordFill inv order currentPrice now) currentPrice
    = InventoryTracker.btc (InventoryTracker.recordFill inv order currentPrice now)
      / totalValue - InventoryTracker.targetRatio inv).
  { pose proof (recordFill_value_neutral inv order currentPrice now Hp) as Hn.
    unfold InventoryTracker.getTotalValueBTC in Hn. fold totalValue in Hn.
    rewrite getImbalance_nonzero by (rewrite Hn; exact Hv).
    rewrite Hn. f_equal.
    unfold InventoryTracker.recordFill.
    destruct (PositionManager.side order); reflexivity. }
  unfold MarketMaker.rebalance, JS.gtb, Math_abs.
  fold inv. fold imbalance. fold limit. fold totalValue. fold swapAmount.
  split; [| split].
  - intros Hle. destruct (ltb_spec limit (Rabs imbalance)); [lra | reflexivity].
  - intros Hgt Hside.
    assert (Habs : Rabs imbalance = imbalance) by (apply Rabs_right; lra).
    destruct (ltb_spec limit (Rabs imbalance)); [| lra].
    destruct (ltb_spec 0 imbalance); [| lra].
    split; [reflexivity |].
    rewrite Hafter. unfold InventoryTracker.recordFill. rewrite Hside. simpl.
    rewrite Hsize. unfold swapAmount. rewrite Habs, Himb. field. exact Hv.
  - intros Hlt Hside.
    assert (Habs : Rabs imbalance = - imbalance) by (apply Rabs_left; lra).
    destruct (ltb_spec limit (Rabs imbalance)); [| lra].
    destruct (ltb_spec 0 imbalance); [lra |].
    split; [reflexivity |].
    rewrite Hafter. unfold InventoryTracker.recordFill. rewrite Hside. simpl.
    rewrite Hsize. unfold swapAmount. rewrite Habs, Himb. field. exact Hv.
Qed.

Lemma rebalance_swap_halves_imbalance_witness :
  MarketMaker.rebalance Samples.makerBtcHeavy 1
  = Some (MarketMaker.BTC_to_RAD
            (InventoryTracker.getTotalValueBTC Samples.btcHeavy 1
             * Rabs (InventoryTracker.getImbalance Samples.btcHeavy 1) / 2))
  /\ InventoryTracker.getImbalance
       (InventoryTracker.recordFill Samples.btcHeavy (Samples.purchase 0.5) 1 0) 1
     = InventoryTracker.getImbalance Samples.btcHeavy 1 / 2.
Proof.
  pose proof (rebalance_swap_halves_imbalance Samples.makerBtcHeavy 1
                (Samples.purchase 0.5) 0) as H.
  cbv zeta in H.
  change (MarketMaker.inventory Samples.makerBtcHeavy) with Samples.btcHeavy in H.
  assert (Hv : InventoryTracker.getTotalValueBTC Samples.btcHeavy 1 = 4)
    by (unfold InventoryTracker.getTotalValueBTC; simpl; lra).
  assert (Hsize :
    PositionManager.sizeBTC (Samples.purchase 0.5)
    = InventoryTracker.getTotalValueBTC Samples.btcHeavy 1
      * Rabs (InventoryTracker.getImbalance Samples.btcHeavy 1) / 2).
  { rewrite Hv, getImbalance_btcHeavy, Rabs_right by lra. simpl. lra. }
  destruct (H ltac:(lra) ltac:(rewrite Hv; lra) ltac:(simpl; lra) Hsize)
    as [_ [Hbuy _]].
  apply Hbuy.
  - rewrite getImbalance_btcHeavy. simpl. lra.
  - reflexivity.
Defined.

(** ** VolumeBot: bias, market orders, rebalancing, risk check *)

(** X14: for a market capitalisation >= 0, a pool volume > 0, an own volume
    >= 0 and a 7-day price change >= 0, the directional bias lies between 0
    and 0.20 + 0.03 * priceChange7d, and the inventory target built from it
    shares the whole value (btc + token = 1), gives the token at least half of
    it, and [token - btc] is the bias. *)
Theorem directional_bias_favours_token
  (token : VolumeBotCycle.MarketData) (ourDailyVolume : R) :
  0 <= VolumeBotCycle.marketCap token ->
  0 < VolumeBotCycle.volume24h token ->
  0 <= ourDailyVolume ->
  0 <= VolumeBotCycle.priceChange7d token ->
  let bias := VolumeBotCycle.calculateDirectionalBias token ourDailyVolume in
  let target := VolumeBotCycle.getInventoryTarget bias in
  0 <= bias <= 0.20 + 0.03 * VolumeBotCycle.priceChange7d token
  /\ VolumeBot.targetBtc target + VolumeBot.targetToken target = 1
  /\ VolumeBot.targetToken target - VolumeBot.targetBtc target = bias
  /\ VolumeBot.targetBtc target <= 0.5 <= VolumeBot.targetToken target.
Proof.
  intros Hcap Hvol Hour Hpc bias target.
  assert (Hratio : 0 <= ourDailyVolume / VolumeBotCycle.volume24h token).
  { apply Rmult_le_pos; [exact Hour | left; apply Rinv_0_lt_compat; exact Hvol]. }
  assert (Hbias : 0 <= bias <= 0.20 + 0.03 * VolumeBotCycle.priceChange7d token).
  { unfold bias, VolumeBotCycle.calculateDirectionalBias, JS.or_default,
      Math_max, Math_min.
    destruct (eqb_spec (VolumeBotCycle.priceChange7d token) 0) as [E | _];
      rewrite ?E;
      unfold Rmax, Rmin;
      repeat match goal with
        | |- context [Rle_dec ?x ?y] => destruct (Rle_dec x y)
        end; lra. }
  unfold target, VolumeBotCycle.getInventoryTarget. simpl.
  repeat split; lra.
Qed.

Lemma directional_bias_favours_token_witness :
  let bias := VolumeBotCycle.calculateDirectionalBias Samples.radMarket 100 in
  let target := VolumeBotCycle.getInventoryTarget bias in
  0 <= bias <= 0.20 + 0.03 * VolumeBotCycle.priceChange7d Samples.radMarket
  /\ VolumeBot.targetBtc target + VolumeBot.targetToken target = 1
  /\ VolumeBot.targetToken target - VolumeBot.targetBtc target = bias
  /\ VolumeBot.targetBtc target <= 0.5 <= VolumeBot.targetToken target.
Proof.
  apply (directional_bias_favours_token Samples.radMarket 100); simpl; lra.
Defined.

(** X15: market orders trade at the market price without fee: for a price not
    zero, [marketBuy] and [marketSell] keep the value of the inventory, and
    selling the tokens that a purchase of [btcAmount] brought gives the
    inventory back. *)
Theorem market_orders_keep_value (bot : VolumeBot.t) (amount : R) :
  VolumeBot.marketPrice bot <> 0 ->
  VolumeBot.currentValue (VolumeBot.marketBuy bot amount)
  = VolumeBot.currentValue bot
  /\ VolumeBot.currentValue (VolumeBot.marketSell bot amount)
     = VolumeBot.currentValue bot
  /\ VolumeBot.btc
       (VolumeBot.inventory
          (VolumeBot.marketSell (VolumeBot.marketBuy bot amount)
             (amount / VolumeBot.marketPrice bot)))
     = VolumeBot.btc (VolumeBot.inventory bot)
  /\ VolumeBot.token
       (VolumeBot.inventory
          (VolumeBot.marketSell (VolumeBot.marketBuy bot amount)
             (amount / VolumeBot.marketPrice bot)))
     = VolumeBot.token (VolumeBot.inventory bot).
Proof.
  intros Hp.
  unfold VolumeBot.currentValue, VolumeBot.marketBuy, VolumeBot.marketSell.
  simpl. repeat split; field; exact Hp.
Qed.

Lemma market_orders_keep_value_witness :
  VolumeBot.currentValue (VolumeBot.marketBuy Samples.btcHeavyBot 0.3)
  = VolumeBot.currentValue Samples.btcHeavyBot.
Proof.
  apply (market_orders_keep_value Samples.btcHeavyBot 0.3). simpl. lra.
Defined.

(** X16: the reverse trade of a fill does not change the value of the
    inventory: for a market price not zero, whether ping-pong is on or off,
    [reverseFill] changes the value at the market price by
    sizeToken * price - sizeBTC for a bid fill and by
    sizeBTC - sizeToken * price for an ask fill. *)
Theorem reverseFill_value (config : VolumeBot.MMConfig) (now : Z)
  (bot : VolumeBot.t) (fill : VolumeBot.Fill) :
  VolumeBot.marketPrice bot <> 0 ->
  VolumeBot.currentValue (VolumeBot.reverseFill config now bot fill)
  = VolumeBot.currentValue bot
    + match VolumeBot.fillSide fill with
      | bid =>
          VolumeBot.fillSizeToken fill * VolumeBot.marketPrice bot
          - VolumeBot.fillSizeBTC fill
      | ask =>
          VolumeBot.fillSizeBTC fill
          - VolumeBot.fillSizeToken fill * VolumeBot.marketPrice bot
      end.
Proof.
  intros Hp. unfold VolumeBot.currentValue, VolumeBot.reverseFill.
  destruct (VolumeBot.fillSide fill); simpl;
    destruct (VolumeBot.pingPongEnabled (VolumeBot.tokenConfig bot)); simpl;
    field; exact Hp.
Qed.

Lemma reverseFill_value_witness :
  VolumeBot.currentValue
    (VolumeBot.reverseFill VolumeBot.MM_CONFIG 0 Samples.ladderBot Samples.ladderFill)
  = VolumeBot.currentValue Samples.ladderBot + (1 * 1 - 1).
Proof.
  apply (reverseFill_value VolumeBot.MM_CONFIG 0 Samples.ladderBot
           Samples.ladderFill).
  simpl. lra.
Defined.

(** X17: [rebalanceIfNeeded] does not chatter: for a threshold >= 0 (price
    and value not zero), calling it again right after a call changes
    nothing. *)
Theorem rebalanceIfNeeded_settles (config : VolumeBot.MMConfig)
  (bot : VolumeBot.t) (target : VolumeBot.InventoryTarget) :
  VolumeBot.marketPrice bot <> 0 ->
  VolumeBot.currentValue bot <> 0 ->
  0 <= VolumeBot.rebalanceThreshold config ->
  VolumeBot.rebalanceIfNeeded config
    (VolumeBot.rebalanceIfNeeded config bot target) target
  = VolumeBot.rebalanceIfNeeded config bot target.
Proof.
  intros Hp Hv Ht.
  destruct (Rle_or_lt
              (Rabs (VolumeBot.btcRatio bot - VolumeBot.targetBtc target))
              (VolumeBot.rebalanceThreshold config)) as [Hin | Hout].
  - rewrite (rebalanceIfNeeded_within_threshold config bot target Hin).
    apply rebalanceIfNeeded_within_threshold. exact Hin.
  - destruct (rebalanceIfNeeded_beyond_threshold config bot target Hp Hv Hout)
      as [_ [_ Hratio]].
    apply rebalanceIfNeeded_within_threshold.
    rewrite Hratio, Rminus_diag, Rabs_R0. exact Ht.
Qed.

Lemma rebalanceIfNeeded_settles_witness :
  VolumeBot.rebalanceIfNeeded VolumeBot.MM_CONFIG
    (VolumeBot.rebalanceIfNeeded VolumeBot.MM_CONFIG Samples.btcHeavyBot
       Samples.target45) Samples.target45
  = VolumeBot.rebalanceIfNeeded VolumeBot.MM_CONFIG Samples.btcHeavyBot
      Samples.target45.
Proof.
  apply (rebalanceIfNeeded_settles VolumeBot.MM_CONFIG Samples.btcHeavyBot
           Samples.target45).
  - simpl. lra.
  - unfold VolumeBot.currentValue. simpl. lra.
  - simpl. lra.
Defined.

(** X18: after [initialPurchase] (allocation and price not zero) the
    inventory is worth exactly the allocation at the market price, half of it
    in BTC, and [checkRiskLimits] does not stop the bot when
    [globalStopLoss] is not positive. *)
Theorem initialPurchase_is_even (config : VolumeBot.MMConfig) (bot : VolumeBot.t) :
  VolumeBot.allocation bot <> 0 ->
  VolumeBot.marketPrice bot <> 0 ->
  VolumeBot.globalStopLoss config <= 0 ->
  let bot' := VolumeBotCycle.initialPurchase bot in
  VolumeBot.currentValue bot' = VolumeBot.allocation bot
  /\ VolumeBot.btcRatio bot' = / 2
  /\ VolumeBotCycle.tokenRatio bot' = / 2
  /\ VolumeBotCycle.checkRiskLimits config bot' = (bot', false).
Proof.
  intros Ha Hp Hs bot'.
  assert (Hval : VolumeBot.currentValue bot' = VolumeBot.allocation bot).
  { unfold bot', VolumeBot.currentValue, VolumeBotCycle.initialPurchase. simpl.
    field. exact Hp. }
  split; [exact Hval |].
  split; [unfold VolumeBot.btcRatio; rewrite Hval; unfold bot'; simpl;
          field; exact Ha |].
  split; [unfold VolumeBotCycle.tokenRatio; rewrite Hval; unfold bot'; simpl;
          field; split; assumption |].
  unfold VolumeBotCycle.checkRiskLimits.
  change (VolumeBot.btc (VolumeBot.inventory bot')
          + VolumeBot.token (VolumeBot.inventory bot') * VolumeBot.marketPrice bot')
    with (VolumeBot.currentValue bot').
  rewrite Hval.
  change (VolumeBot.allocation bot') with (VolumeBot.allocation bot).
  rewrite Rminus_diag.
  unfold Rdiv. rewrite Rmult_0_l.
  destruct (ltb_spec 0 (VolumeBot.globalStopLoss config)); [lra | reflexivity].
Qed.

Lemma initialPurchase_is_even_witness :
  let bot' := VolumeBotCycle.initialPurchase Samples.ladderBot in
  VolumeBot.currentValue bot' = VolumeBot.allocation Samples.ladderBot
  /\ VolumeBot.btcRatio bot' = / 2
  /\ VolumeBotCycle.tokenRatio bot' = / 2
  /\ VolumeBotCycle.checkRiskLimits VolumeBot.MM_CONFIG bot' = (bot', false).
Proof.
  apply (initialPurchase_is_even VolumeBot.MM_CONFIG Samples.ladderBot);
    simpl; lra.
Defined.

(** ** VolumeBot: the ladder, the detection of fills, the counters *)

Section LadderFacts.
Import VolumeBot VolumeBotCycle.

Lemma filter_map_all {A B : Type} (f : A -> B) (test : B -> bool) (l : list A) :
  (forall a, test (f a) = true) -> filter test (map f l) = map f l.
Proof.
  intros H. induction l as [| a l IH]; [reflexivity|].
  simpl. rewrite H, IH. reflexivity.
Qed.

Lemma filter_map_none {A B : Type} (f : A -> B) (test : B -> bool) (l : list A) :
  (forall a, test (f a) = false) -> filter test (map f l) = [].
Proof.
  intros H. induction l as [| a l IH]; [reflexivity|].
  simpl. rewrite H, IH. reflexivity.
Qed.

Lemma sum_constant {A : Type} (c : R) (l : list A) :
  fold_right Rplus 0 (map (fun _ => c) l) = INR (List.length l) * c.
Proof.
  induction l as [| a l IH]; [simpl; lra|].
  change (List.length (a :: l)) with (S (List.length l)).
  rewrite S_INR. simpl. rewrite IH. lra.
Qed.

(** The bid and the ask of level [j] of a ladder around [p]. *)
Let bidAt (n i : nat) (p size : R) (j : nat) : Position :=
  mkPosition (n + j) bid (p * (1 + (-0.025 - INR (i + j) * 0.01))) size
    (size / (p * (1 + (-0.025 - INR (i + j) * 0.01)))) open.

Let askAt (n i : nat) (p size : R) (j : nat) : Position :=
  mkPosition (n + j) ask (p * (1 + (0.025 + INR (i + j) * 0.01)))
    (size * (p * (1 + (0.025 + INR (i + j) * 0.01)))) size open.

Lemma bidLadder_positions (levels : nat) :
  forall (i n : nat) (bot : t) (p size : R),
    bidLadder levels i n bot p size
    = setPositions bot (positions bot ++ map (bidAt n i p size) (seq 0 levels)).
Proof.
  induction levels as [| levels IH]; intros i n bot p size.
  - simpl. rewrite app_nil_r. destruct bot; reflexivity.
  - simpl bidLadder. rewrite IH. unfold placeBid, setPositions. simpl.
    f_equal. rewrite <- app_assoc. f_equal. simpl. f_equal.
    + unfold bidAt. rewrite !Nat.add_0_r. reflexivity.
    + rewrite <- seq_shift, map_map. apply map_ext. intros j.
      unfold bidAt. rewrite !Nat.add_succ_r. reflexivity.
Qed.

Lemma askLadder_positions (levels : nat) :
  forall (i n : nat) (bot : t) (p size : R),
    askLadder levels i n bot p size
    = setPositions bot (positions bot ++ map (askAt n i p size) (seq 0 levels)).
Proof.
  induction levels as [| levels IH]; intros i n bot p size.
  - simpl. rewrite app_nil_r. destruct bot; reflexivity.
  - simpl askLadder. rewrite IH. unfold placeAsk, setPositions. simpl.
    f_equal. rewrite <- app_assoc. f_equal. simpl. f_equal.
    + unfold askAt. rewrite !Nat.add_0_r. reflexivity.
    + rewrite <- seq_shift, map_map. apply map_ext. intros j.
      unfold askAt. rewrite !Nat.add_succ_r. reflexivity.
Qed.

(** The ladder that [placeLadderOrders] builds on a bot without positions. *)
Lemma placeLadderOrders_shape (n : nat) (bot : t) (target : InventoryTarget) :
  let levelsZ :=
    if (ladderLevels (tokenConfig bot) =? 0)%Z then 5%Z
    else ladderLevels (tokenConfig bot) in
  let levels := Z.to_nat levelsZ in
  let result := fst (placeLadderOrders n (cancelAllPositions bot) target) in
  let bids := filter (fun q => Side_eqb (side q) bid) (positions result) in
  let asks := filter (fun q => Side_eqb (side q) ask) (positions result) in
  (0 < levelsZ)%Z ->
  List.length bids = levels /\ List.length asks = levels
  /\ List.length (positions result) = (levels + levels)%nat
  /\ Forall (fun q => status q = open) (positions result)
  /\ fold_right Rplus 0 (map sizeBTC bids) = btc (inventory bot)
  /\ fold_right Rplus 0 (map sizeToken asks) = token (inventory bot)
  /\ inventory result = inventory bot
  /\ (0 < marketPrice bot ->
      Forall (fun q => price q < marketPrice bot) bids
      /\ Forall (fun q => marketPrice bot < price q) asks).
Proof.
  intros levelsZ levels result bids asks Hpos.
  assert (Hlev : INR levels = IZR levelsZ).
  { unfold levels. rewrite INR_IZR_INZ, Z2Nat.id by lia. reflexivity. }
  assert (Hnz : IZR levelsZ <> 0).
  { apply not_0_IZR. lia. }
  assert (Eres : result
                 = setPositions bot
                     (map (bidAt n 0 (marketPrice bot)
                             (btc (inventory bot) / IZR levelsZ)) (seq 0 levels)
                      ++ map (askAt (n + levels) 0 (marketPrice bot)
                                (token (inventory bot) / IZR levelsZ))
                           (seq 0 levels))).
  { unfold result, placeLadderOrders. cbv zeta. simpl fst.
    change (tokenConfig (cancelAllPositions bot)) with (tokenConfig bot).
    fold levelsZ. fold levels.
    rewrite askLadder_positions, bidLadder_positions. simpl.
    unfold setPositions. simpl. reflexivity. }
  assert (Ebids : bids = map (bidAt n 0 (marketPrice bot)
                                (btc (inventory bot) / IZR levelsZ)) (seq 0 levels)).
  { unfold bids. rewrite Eres. simpl. rewrite filter_app.
    rewrite filter_map_all by reflexivity.
    rewrite filter_map_none by reflexivity. apply app_nil_r. }
  assert (Easks : asks = map (askAt (n + levels) 0 (marketPrice bot)
                                (token (inventory bot) / IZR levelsZ))
                           (seq 0 levels)).
  { unfold asks. rewrite Eres. simpl. rewrite filter_app.
    rewrite filter_map_none by reflexivity.
    rewrite filter_map_all by reflexivity. reflexivity. }
  rewrite Ebids, Easks, Eres. simpl positions. simpl inventory.
  rewrite ?length_app, ?length_map, ?length_seq, !map_map. simpl.
  rewrite !sum_constant, !length_seq, Hlev.
  split; [reflexivity |]. split; [reflexivity |]. split; [reflexivity |].
  split.
  { apply Forall_app. split; apply Forall_forall; intros q Hq;
      apply in_map_iff in Hq; destruct Hq as [j [<- _]]; reflexivity. }
  split; [field; exact Hnz |]. split; [field; exact Hnz |].
  split; [reflexivity |].
  intros Hp. split; apply Forall_forall; intros q Hq;
    apply in_map_iff in Hq; destruct Hq as [j [<- _]]; simpl;
    pose proof (pos_INR j); nra.
Qed.

End LadderFacts.

(** X19: on a bot whose positions were cancelled, as in [tick],
    [placeLadderOrders] with a positive number of levels (5 when
    [ladderLevels] is 0 or unset) places that many bids and as many asks, all
    open; the bids commit together the whole BTC balance and the asks the
    whole token balance, while the inventory itself is not changed; at a
    positive market price every bid is priced below it and every ask above
    it. *)
Theorem placeLadderOrders_ladder (n : nat) (bot : VolumeBot.t)
  (target : VolumeBot.InventoryTarget) :
  let levelsZ :=
    if (VolumeBot.ladderLevels (VolumeBot.tokenConfig bot) =? 0)%Z then 5%Z
    else VolumeBot.ladderLevels (VolumeBot.tokenConfig bot) in
  let levels := Z.to_nat levelsZ in
  let result :=
    fst (VolumeBotCycle.placeLadderOrders n (VolumeBotCycle.cancelAllPositions bot)
           target) in
  let bids :=
    filter (fun q => Side_eqb (VolumeBot.side q) bid) (VolumeBot.positions result) in
  let asks :=
    filter (fun q => Side_eqb (VolumeBot.side q) ask) (VolumeBot.positions result) in
  (0 < levelsZ)%Z ->
  List.length bids = levels /\ List.length asks = levels
  /\ List.length (VolumeBot.positions result) = (levels + levels)%nat
  /\ Forall (fun q => VolumeBot.status q = open) (VolumeBot.positions result)
  /\ fold_right Rplus 0 (map VolumeBot.sizeBTC bids)
     = VolumeBot.btc (VolumeBot.inventory bot)
  /\ fold_right Rplus 0 (map VolumeBot.sizeToken asks)
     = VolumeBot.token (VolumeBot.inventory bot)
  /\ VolumeBot.inventory result = VolumeBot.inventory bot
  /\ (0 < VolumeBot.marketPrice bot ->
      Forall (fun q => VolumeBot.price q < VolumeBot.marketPrice bot) bids
      /\ Forall (fun q => VolumeBot.marketPrice bot < VolumeBot.price q) asks).
Proof. apply placeLadderOrders_shape. Qed.

Lemma placeLadderOrders_ladder_witness :
  let result :=
    fst (VolumeBotCycle.placeLadderOrders 0
           (VolumeBotCycle.cancelAllPositions Samples.ladderBot) Samples.target45) in
  let bids :=
    filter (fun q => Side_eqb (VolumeBot.side q) bid) (VolumeBot.positions result) in
  let asks :=
    filter (fun q => Side_eqb (VolumeBot.side q) ask) (VolumeBot.positions result) in
  List.length bids = 5%nat /\ List.length asks = 5%nat
  /\ List.length (VolumeBot.positions result) = 10%nat
  /\ Forall (fun q => VolumeBot.status q = open) (VolumeBot.positions result)
  /\ fold_right Rplus 0 (map VolumeBot.sizeBTC bids)
     = VolumeBot.btc (VolumeBot.inventory Samples.ladderBot)
  /\ fold_right Rplus 0 (map VolumeBot.sizeToken asks)
     = VolumeBot.token (VolumeBot.inventory Samples.ladderBot)
  /\ VolumeBot.inventory result = VolumeBot.inventory Samples.ladderBot
  /\ (0 < VolumeBot.marketPrice Samples.ladderBot ->
      Forall (fun q => VolumeBot.price q < VolumeBot.marketPrice Samples.ladderBot)
        bids
      /\ Forall (fun q => VolumeBot.marketPrice Samples.ladderBot < VolumeBot.price q)
           asks).
Proof.
  apply (placeLadderOrders_ladder 0 Samples.ladderBot Samples.target45).
  simpl. lia.
Defined.

Section DetectFacts.
Import VolumeBot VolumeBotCycle.

Variable config : MMConfig.

(** What [detectFills] returns, built along the positions. *)
Lemma detectFillsFrom_facts (random : nat -> R) (positions : list Position) :
  forall n : nat,
    let result := detectFillsFrom config random n positions in
    let positions' := fst (fst result) in
    let fills := snd (fst result) in
    let n' := snd result in
    List.length positions' = List.length positions
    /\ n' = (n + List.length (filter isOpen positions))%nat
    /\ (List.length fills <= List.length (filter isOpen positions))%nat
    /\ Forall (fun f =>
                 exists q, In q positions /\ status q = open
                           /\ fillId f = id q /\ fillSide f = side q
                           /\ fillPrice f = price q
                           /\ fillSizeBTC f = sizeBTC q
                           /\ fillSizeToken f = sizeToken q
                           /\ value f = sizeBTC q) fills
    /\ Forall2 (fun q q' =>
                  q' = q
                  \/ (status q = open /\ status q' = filled
                      /\ id q' = id q /\ side q' = side q /\ price q' = price q
                      /\ sizeBTC q' = sizeBTC q /\ sizeToken q' = sizeToken q))
         positions positions'
    /\ ((forall k, expectedFillRate config <= random k) ->
        fills = [] /\ positions' = positions).
Proof.
  induction positions as [| q rest IH]; intros n.
  - simpl. repeat split; auto.
  - cbv zeta. simpl detectFillsFrom. unfold isOpen at 1 2. simpl filter.
    fold isOpen.
    destruct (Status_eqb_spec (status q) open) as [Hopen | Hclosed]; simpl negb.
    + destruct (ltb_spec (random n) (expectedFillRate config)) as [Hfill | Hno].
      * specialize (IH (S n)). cbv zeta in IH.
        destruct (detectFillsFrom config random (S n) rest) as [[rest' fills] n'].
        simpl in *. destruct IH as [Hl [Hn [Hc [Hf [H2 Hnone]]]]].
        repeat split.
        -- rewrite Hl. reflexivity.
        -- lia.
        -- lia.
        -- constructor.
           ++ exists q. simpl. repeat split; auto.
           ++ eapply Forall_impl; [| exact Hf].
              intros f [q0 [Hin Hq0]]. exists q0. split; [right; exact Hin | exact Hq0].
        -- constructor; [right; simpl; repeat split; auto | exact H2].
        -- exfalso. specialize (H n). lra.
        -- exfalso. specialize (H n). lra.
      * specialize (IH (S n)). cbv zeta in IH.
        destruct (detectFillsFrom config random (S n) rest) as [[rest' fills] n'].
        simpl in *. destruct IH as [Hl [Hn [Hc [Hf [H2 Hnone]]]]].
        repeat split.
        -- rewrite Hl. reflexivity.
        -- lia.
        -- lia.
        -- eapply Forall_impl; [| exact Hf].
           intros f [q0 [Hin Hq0]]. exists q0. split; [right; exact Hin | exact Hq0].
        -- constructor; [left; reflexivity | exact H2].
        -- apply Hnone. exact H.
        -- f_equal. apply Hnone. exact H.
    + specialize (IH n). cbv zeta in IH.
      destruct (detectFillsFrom config random n rest) as [[rest' fills] n'].
      simpl in *. destruct IH as [Hl [Hn [Hc [Hf [H2 Hnone]]]]].
      repeat split.
      * rewrite Hl. reflexivity.
      * exact Hn.
      * exact Hc.
      * eapply Forall_impl; [| exact Hf].
        intros f [q0 [Hin Hq0]]. exists q0. split; [right; exact Hin | exact Hq0].
      * constructor; [left; reflexivity | exact H2].
      * apply Hnone. exact H.
      * f_equal. apply Hnone. exact H.
Qed.

(** One fill on the counters. *)
Lemma reverseFill_counters (now : Z) (bot : t) (fill : Fill) :
  let factor := if pingPongEnabled (tokenConfig bot) then 2 else 1 in
  let bot' := reverseFill config now bot fill in
  tokenConfig bot' = tokenConfig bot
  /\ volumeGenerated (metrics bot')
     = volumeGenerated (metrics bot) + factor * value fill
  /\ volumeGenerated24h (metrics bot')
     = volumeGenerated24h (metrics bot) + factor * value fill
  /\ tradingFeesPaid (metrics bot')
     = tradingFeesPaid (metrics bot) + radfiFeeRate config * value fill
  /\ List.length (trades (metrics bot')) = S (List.length (trades (metrics bot))).
Proof.
  unfold reverseFill.
  destruct (fillSide fill); simpl;
    destruct (pingPongEnabled (tokenConfig bot)); simpl;
    rewrite length_app; simpl; repeat split; try lra; lia.
Qed.

Lemma reverseFills_counters (now : Z) (fills : list Fill) :
  forall bot : t,
    let factor := if pingPongEnabled (tokenConfig bot) then 2 else 1 in
    let total := fold_right Rplus 0 (map value fills) in
    let bot' := fold_left (reverseFill config now) fills bot in
    volumeGenerated (metrics bot') = volumeGenerated (metrics bot) + factor * total
    /\ volumeGenerated24h (metrics bot')
       = volumeGenerated24h (metrics bot) + factor * total
    /\ tradingFeesPaid (metrics bot')
       = tradingFeesPaid (metrics bot) + radfiFeeRate config * total
    /\ List.length (trades (metrics bot'))
       = (List.length (trades (metrics bot)) + List.length fills)%nat.
Proof.
  induction fills as [| fill fills IH]; intros bot.
  - simpl. repeat split; try lra; lia.
  - cbv zeta. simpl fold_left. simpl map. simpl fold_right.
    specialize (IH (reverseFill config now bot fill)). cbv zeta in IH.
    destruct (reverseFill_counters now bot fill) as [Hcfg [Hv [Hv24 [Hfee Hlen]]]].
    rewrite Hcfg in IH. destruct IH as [IHv [IHv24 [IHfee IHlen]]].
    rewrite IHv, IHv24, IHfee, IHlen, Hv, Hv24, Hfee, Hlen.
    simpl. repeat split; try lra; lia.
Qed.

End DetectFacts.

(** X20: [detectFills] keeps the number of positions and draws one random
    number per open position; a position that is not open is left as it is,
    an open one is either left or marked filled with its other fields kept;
    every fill it returns copies an open position, with [value] its
    [sizeBTC]; and when no draw is below [expectedFillRate] it returns no fill
    and leaves all positions as they are. *)
Theorem detectFills_only_open (config : VolumeBot.MMConfig) (random : nat -> R)
  (n : nat) (positions : list VolumeBot.Position) :
  let result := VolumeBot.detectFillsFrom config random n positions in
  let positions' := fst (fst result) in
  let fills := snd (fst result) in
  let n' := snd result in
  List.length positions' = List.length positions
  /\ n' = (n + List.length (filter VolumeBotCycle.isOpen positions))%nat
  /\ (List.length fills
      <= List.length (filter VolumeBotCycle.isOpen positions))%nat
  /\ Forall (fun f =>
               exists q, In q positions /\ VolumeBot.status q = open
                         /\ VolumeBot.fillId f = VolumeBot.id q
                         /\ VolumeBot.fillSide f = VolumeBot.side q
                         /\ VolumeBot.fillPrice f = VolumeBot.price q
                         /\ VolumeBot.fillSizeBTC f = VolumeBot.sizeBTC q
                         /\ VolumeBot.fillSizeToken f = VolumeBot.sizeToken q
                         /\ VolumeBot.value f = VolumeBot.sizeBTC q) fills
  /\ Forall2 (fun q q' =>
                q' = q
                \/ (VolumeBot.status q = open /\ VolumeBot.status q' = filled
                    /\ VolumeBot.id q' = VolumeBot.id q
                    /\ VolumeBot.side q' = VolumeBot.side q
                    /\ VolumeBot.price q' = VolumeBot.price q
                    /\ VolumeBot.sizeBTC q' = VolumeBot.sizeBTC q
                    /\ VolumeBot.sizeToken q' = VolumeBot.sizeToken q))
       positions positions'
  /\ ((forall k, VolumeBot.expectedFillRate config <= random k) ->
      fills = [] /\ positions' = positions).
Proof. apply detectFillsFrom_facts. Qed.

Lemma detectFills_only_open_witness :
  snd (fst (VolumeBot.detectFillsFrom VolumeBot.MM_CONFIG (fun _ => 0.5) 0
              (VolumeBot.positions Samples.ladderBot))) = []
  /\ fst (fst (VolumeBot.detectFillsFrom VolumeBot.MM_CONFIG (fun _ => 0.5) 0
                 (VolumeBot.positions Samples.ladderBot)))
     = VolumeBot.positions Samples.ladderBot.
Proof.
  apply (detectFills_only_open VolumeBot.MM_CONFIG (fun _ => 0.5) 0
           (VolumeBot.positions Samples.ladderBot)).
  intros k. simpl. lra.
Defined.

(** X21: one call of [checkFillsAndReverse] adds to [volumeGenerated] and to
    [volumeGenerated24h] the same amount, the sum of the values of the
    detected fills, doubled when ping-pong is on; it adds [radfiFeeRate]
    times that sum to [tradingFeesPaid], and one trade record per fill. *)
Theorem checkFillsAndReverse_counters (config : VolumeBot.MMConfig)
  (random : nat -> R) (n : nat) (now : Z) (bot : VolumeBot.t) :
  let fills :=
    snd (fst (VolumeBot.detectFillsFrom config random n (VolumeBot.positions bot))) in
  let total := fold_right Rplus 0 (map VolumeBot.value fills) in
  let factor :=
    if VolumeBot.pingPongEnabled (VolumeBot.tokenConfig bot) then 2 else 1 in
  let bot' := fst (VolumeBot.checkFillsAndReverse config random n now bot) in
  let m := VolumeBot.metrics bot in
  let m' := VolumeBot.metrics bot' in
  VolumeBot.volumeGenerated m' = VolumeBot.volumeGenerated m + factor * total
  /\ VolumeBot.volumeGenerated24h m'
     = VolumeBot.volumeGenerated24h m + factor * total
  /\ VolumeBot.tradingFeesPaid m'
     = VolumeBot.tradingFeesPaid m + VolumeBot.radfiFeeRate config * total
  /\ List.length (VolumeBot.trades m')
     = (List.length (VolumeBot.trades m) + List.length fills)%nat.
Proof.
  intros fills total factor bot' m m'.
  unfold m', bot', VolumeBot.checkFillsAndReverse.
  unfold total, fills.
  destruct (VolumeBot.detectFillsFrom config random n (VolumeBot.positions bot))
    as [[positions' detected] n'].
  simpl fst. simpl snd.
  apply (reverseFills_counters config now detected
           (VolumeBot.setPositions bot positions')).
Qed.

(** ** The backtest: simulated prices and the metrics *)

Section BacktestFacts.
Import Backtest.

Lemma nextPrice_facts (sim : PriceSimulator) (timestep random : R) (now : Z) :
  0 < basePrice sim ->
  let sim' := fst (nextPrice sim timestep random now) in
  let price := snd (nextPrice sim timestep random now) in
  basePrice sim * 0.5 <= price <= basePrice sim * 2
  /\ currentPrice sim' = price
  /\ basePrice sim' = basePrice sim
  /\ volatility sim' = volatility sim
  /\ List.length (history sim') = S (List.length (history sim)).
Proof.
  intros Hb. unfold nextPrice. simpl. rewrite length_app. simpl.
  split; [apply clamp_bounds; lra |].
  repeat split; try reflexivity. lia.
Qed.

Lemma simulateFrom_step (turns : nat) (i : Z) (sim : PriceSimulator)
  (random : nat -> R) (k : nat) (now : Z) :
  simulateFrom (S turns) i sim random k now
  = if (i <? 1440)%Z then
      let '(sim1, price) := nextPrice sim (IZR updateFrequency) (random k) now in
      let '(sim2, prices) :=
        simulateFrom turns (i + updateFrequency) sim1 random (S k) now in
      (sim2, price :: prices)
    else (sim, []).
Proof. reflexivity. Qed.

Lemma simulateFrom_facts (random : nat -> R) (now : Z) (turns : nat) :
  forall (i : Z) (sim : PriceSimulator) (k : nat),
    0 < basePrice sim ->
    let sim' := fst (simulateFrom turns i sim random k now) in
    let prices := snd (simulateFrom turns i sim random k now) in
    basePrice sim' = basePrice sim
    /\ Forall (fun p => basePrice sim * 0.5 <= p <= basePrice sim * 2) prices
    /\ ((1440 - i <= 60 * Z.of_nat turns)%Z ->
        List.length prices = Z.to_nat ((1440 - i + 59) / 60)).
Proof.
  induction turns as [| turns IH]; intros i sim k Hb.
  - cbv zeta. simpl simulateFrom. simpl fst. simpl snd.
    split; [reflexivity |]. split; [constructor |].
    intros Hi. simpl List.length.
    assert (H : ((1440 - i + 59) / 60 < 1)%Z)
      by (apply Z.div_lt_upper_bound; lia).
    destruct ((1440 - i + 59) / 60)%Z; try reflexivity; lia.
  - cbv zeta. rewrite simulateFrom_step.
    destruct (Z.ltb_spec i 1440) as [Hlt | Hge].
    + pose proof (nextPrice_facts sim (IZR updateFrequency) (random k) now Hb)
        as Hn. cbv zeta in Hn.
      destruct (nextPrice sim (IZR updateFrequency) (random k) now)
        as [sim1 price].
      simpl fst in Hn. simpl snd in Hn. destruct Hn as [Hrange [_ [Hbase _]]].
      assert (Hb1 : 0 < basePrice sim1) by (rewrite Hbase; exact Hb).
      specialize (IH (i + updateFrequency)%Z sim1 (S k) Hb1). cbv zeta in IH.
      destruct (simulateFrom turns (i + updateFrequency) sim1 random (S k) now)
        as [sim2 prices].
      simpl fst in *. simpl snd in *. destruct IH as [IHbase [IHall IHlen]].
      rewrite Hbase in *.
      split; [exact IHbase |]. split; [constructor; assumption |].
      intros Hi. unfold updateFrequency in IHlen.
      simpl List.length. rewrite IHlen by lia.
      replace (1440 - i + 59)%Z with (1440 - (i + 60) + 59 + 1 * 60)%Z by lia.
      rewrite Z.div_add by lia.
      rewrite Z2Nat.inj_add; [simpl; lia | | lia].
      apply Z.div_pos; lia.
    + simpl fst. simpl snd. split; [reflexivity |]. split; [constructor |].
      intros _. simpl List.length.
      assert (H : ((1440 - i + 59) / 60 < 1)%Z)
        by (apply Z.div_lt_upper_bound; lia).
      destruct ((1440 - i + 59) / 60)%Z; try reflexivity; lia.
Qed.

(** The running peak stays positive and the maximal drawdown within
    [0, 1]. *)
Lemma drawdown_fold (values : list R) :
  forall peak maxDD : R,
    0 < peak -> 0 <= maxDD <= 1 ->
    Forall (fun v => 0 <= v) values ->
    0 < fst (fold_left drawdownStep values (peak, maxDD))
    /\ maxDD <= snd (fold_left drawdownStep values (peak, maxDD)) <= 1.
Proof.
  induction values as [| v values IH]; intros peak maxDD Hpeak Hdd Hall.
  - simpl. lra.
  - inversion Hall as [| ? ? Hv Hrest]; subst.
    change (fold_left drawdownStep (v :: values) (peak, maxDD))
      with (fold_left drawdownStep values (drawdownStep (peak, maxDD) v)).
    pose (peak' := if peak <? v then v else peak).
    pose (dd := (peak' - v) / peak').
    assert (E : drawdownStep (peak, maxDD) v
                = (peak', if maxDD <? dd then dd else maxDD)) by reflexivity.
    rewrite E. clear E.
    assert (Hpeak' : 0 < peak' /\ v <= peak').
    { unfold peak'. destruct (ltb_spec peak v); lra. }
    assert (Hdd' : 0 <= dd <= 1).
    { unfold dd. split.
      - apply Rmult_le_pos; [lra | left; apply Rinv_0_lt_compat; lra].
      - apply Rmult_le_reg_r with peak'; [lra |].
        unfold Rdiv. rewrite Rmult_assoc, Rinv_l by lra. lra. }
    destruct (ltb_spec maxDD dd) as [Hgt | Hle].
    + destruct (IH peak' dd (proj1 Hpeak') Hdd' Hrest) as [H1 H2].
      split; [exact H1 | lra].
    + destruct (IH peak' maxDD (proj1 Hpeak') Hdd Hrest) as [H1 H2].
      split; [exact H1 | lra].
Qed.

Lemma filter_length_le {A : Type} (test : A -> bool) (l : list A) :
  (List.length (filter test l) <= List.length l)%nat.
Proof.
  induction l as [| a l IH]; [simpl; lia|].
  simpl. destruct (test a); simpl; lia.
Qed.

End BacktestFacts.

(** X22: for a base price > 0 and a time step >= 0, a simulated price never
    leaves [basePrice / 2, 2 * basePrice], whatever the random draw and the
    volatility, and the simulator keeps its base price and records one more
    point; a simulated day is 24 such prices (the time step is 60), all in
    that band, hence positive. *)
Theorem simulated_prices_stay_in_band (sim : Backtest.PriceSimulator)
  (random : nat -> R) (k : nat) (now : Z) (timestep draw : R) :
  0 < Backtest.basePrice sim ->
  0 <= timestep ->
  let next := Backtest.nextPrice sim timestep draw now in
  let day := Backtest.simulateDay sim random k now in
  (Backtest.basePrice sim * 0.5 <= snd next <= Backtest.basePrice sim * 2
   /\ Backtest.currentPrice (fst next) = snd next
   /\ Backtest.basePrice (fst next) = Backtest.basePrice sim
   /\ List.length (Backtest.history (fst next))
      = S (List.length (Backtest.history sim)))
  /\ List.length (snd day) = 24%nat
  /\ Forall (fun p => Backtest.basePrice sim * 0.5 <= p <= Backtest.basePrice sim * 2)
       (snd day)
  /\ Forall (fun p => 0 < p) (snd day).
Proof.
  intros Hb _ next day.
  pose proof (nextPrice_facts sim timestep draw now Hb) as Hn. cbv zeta in Hn.
  pose proof (simulateFrom_facts random now 1440 0 sim k Hb) as Hd.
  cbv zeta in Hd. destruct Hd as [_ [Hall Hlen]].
  split; [unfold next; tauto |].
  split; [unfold day, Backtest.simulateDay; rewrite Hlen by lia; reflexivity |].
  split; [exact Hall |].
  eapply Forall_impl; [| exact Hall].
  intros p Hp. simpl in Hp. lra.
Qed.

Lemma simulated_prices_stay_in_band_witness :
  let sim := Backtest.newSimulator 0.00033774917 0.15 in
  List.length (snd (Backtest.simulateDay sim (fun _ => 0.5) 0 0)) = 24%nat
  /\ Forall (fun p => 0 < p) (snd (Backtest.simulateDay sim (fun _ => 0.5) 0 0)).
Proof.
  pose proof (simulated_prices_stay_in_band
                (Backtest.newSimulator 0.00033774917 0.15) (fun _ => 0.5) 0 0
                60 0.5) as H.
  cbv zeta in H.
  destruct (H ltac:(simpl; lra) ltac:(lra)) as [_ [Hlen [_ Hpos]]].
  split; [exact Hlen | exact Hpos].
Defined.

(** X23: the metrics of the backtest: the win rate always lies in [0, 1]
    (it is 0 when there is no trade), and for a positive initial capital and
    daily values >= 0 the maximal drawdown lies in [0, 1]. *)
Theorem calculateMetrics_ranges (initialBTC backtestDays finalPnL : R)
  (dailyPnL : list Backtest.DailyPnL) (tradePnls : list R) :
  let results :=
    Backtest.calculateMetrics initialBTC backtestDays finalPnL dailyPnL tradePnls in
  0 <= Backtest.winRate results <= 1
  /\ (tradePnls = [] -> Backtest.winRate results = 0)
  /\ (0 < initialBTC ->
      Forall (fun d => 0 <= Backtest.dayValue d) dailyPnL ->
      0 <= Backtest.maxDrawdown results <= 1).
Proof.
  intros results. unfold results, Backtest.calculateMetrics. simpl.
  split; [| split].
  - set (wins := List.length (filter (fun pnl => pnl >? 0) tradePnls)).
    assert (Hw : INR wins <= INR (List.length tradePnls)).
    { apply le_INR. apply filter_length_le. }
    pose proof (pos_INR wins) as Hw0.
    pose proof (Rmax_l (INR (List.length tradePnls)) 1) as Hm1.
    pose proof (Rmax_r (INR (List.length tradePnls)) 1) as Hm2.
    unfold Math_max.
    set (d := Rmax (INR (List.length tradePnls)) 1) in *.
    split.
    + apply Rmult_le_pos; [exact Hw0 | left; apply Rinv_0_lt_compat; lra].
    + apply Rmult_le_reg_r with d; [lra |].
      unfold Rdiv. rewrite Rmult_assoc, Rinv_l by lra. lra.
  - intros ->. simpl. unfold Rdiv. apply Rmult_0_l.
  - intros Hinit Hall.
    apply (drawdown_fold (map Backtest.dayValue dailyPnL) initialBTC 0 Hinit);
      [lra |].
    apply Forall_map. exact Hall.
Qed.

Lemma calculateMetrics_ranges_witness :
  let results :=
    Backtest.calculateMetrics 2 30 0
      [Backtest.mkDaily 1 1 50 3 1; Backtest.mkDaily 2 (-2) (-66) 1 1] [1; -1] in
  0 <= Backtest.maxDrawdown results <= 1.
Proof.
  pose proof (calculateMetrics_ranges 2 30 0
                [Backtest.mkDaily 1 1 50 3 1; Backtest.mkDaily 2 (-2) (-66) 1 1]
                [1; -1]) as H.
  cbv zeta in H. destruct H as [_ [_ H]].
  apply H; [lra |].
  repeat constructor; simpl; lra.
Defined.
